(** * postgrest-py: the asynchronous request builder

    A shallow embedding of [postgrest/_async/request_builder.py]: the query
    factory that picks an execution strategy from the accumulated headers,
    the two [execute] methods, and the per-verb entry points that create a
    factory from the request-assembly functions.

    Python values are modelled as follows.
    - [str] is [string]; [str.lower] acts on the ASCII letters.
    - the value returned by [Response.json()] is a [JSON] tree, [JNull]
      being Python's [None].
    - [httpx.Headers] is the ordered list of (name, value) entries, looked
      up case-insensitively, several entries of one name joined by [", "].
    - objects that are shared by reference (the [Headers] of a chain) live
      in a store indexed by locations.
    - a call either returns or raises: [outcome]. *)

From Stdlib Require Import ZArith String Ascii List Bool Lia.
From stdpp Require Import base option list gmap strings.

#[local] Set Warnings "-register-all".

Local Open Scope string_scope.
Local Open Scope Z_scope.

(** ** Python strings *)

Module Str.

(** [c.lower()] on one character. *)
Definition lower_ascii (c : ascii) : ascii :=
  let n := nat_of_ascii c in
  if ((65 <=? n) && (n <=? 90))%nat then ascii_of_nat (n + 32) else c.

(** [s.lower()]. *)
Fixpoint lower (s : string) : string :=
  match s with
  | EmptyString => EmptyString
  | String c s' => String (lower_ascii c) (lower s')
  end.

(** [sep.join(parts)]. *)
Fixpoint join (sep : string) (parts : list string) : string :=
  match parts with
  | [] => ""
  | [p] => p
  | p :: ps => p ++ sep ++ join sep ps
  end.

(** [hay.startswith(needle)]. *)
Fixpoint startswith (needle hay : string) : bool :=
  match needle, hay with
  | EmptyString, _ => true
  | String a n', String b h' => Ascii.eqb a b && startswith n' h'
  | String _ _, EmptyString => false
  end.

(** [needle in hay] for two strings. *)
Fixpoint contains (needle hay : string) : bool :=
  startswith needle hay ||
  match hay with
  | EmptyString => false
  | String _ h' => contains needle h'
  end.

(** What [needle in hay] means: [hay] is [pre ++ needle ++ post]. *)
Definition substring_of (needle hay : string) : Prop :=
  exists pre post, hay = pre ++ needle ++ post.

End Str.

(** ** Values decoded from JSON *)

Inductive JSON : Type :=
| JNull
| JBool (b : bool)
| JNum (n : Z)
| JStr (s : string)
| JArr (items : list JSON)
| JObj (members : list (string * JSON)).

Module Py.

(** [d.get(key)] on a dict given by its members in source order; a later
    member of the same key overrides an earlier one, a missing key gives
    [None]. *)
Fixpoint lookup (members : list (string * JSON)) (key : string) : option JSON :=
  match members with
  | [] => None
  | (k, v) :: rest =>
      match lookup rest key with
      | Some v' => Some v'
      | None => if String.eqb k key then Some v else None
      end
  end.

Definition dict_get (members : list (string * JSON)) (key : string) : JSON :=
  match lookup members key with
  | Some v => v
  | None => JNull
  end.

(** [key in d]. *)
Definition dict_has (members : list (string * JSON)) (key : string) : bool :=
  match lookup members key with
  | Some _ => true
  | None => false
  end.

(** [bool(v)]. *)
Definition truthy (v : JSON) : bool :=
  match v with
  | JNull => false
  | JBool b => b
  | JNum n => negb (n =? 0)
  | JStr s => negb (String.eqb s "")
  | JArr items => match items with [] => false | _ => true end
  | JObj members => match members with [] => false | _ => true end
  end.

(** [v == s] for a string [s]. *)
Definition eq_str (s : string) (v : JSON) : bool :=
  match v with
  | JStr t => String.eqb t s
  | _ => false
  end.

End Py.

(** ** httpx.Headers *)

Definition Headers : Type := list (string * string).

Module HeadersOps.

(** The values of every entry whose name matches [key], in order. *)
Definition values (h : Headers) (key : string) : list string :=
  List.map snd (List.filter (fun kv => String.eqb (Str.lower (fst kv)) (Str.lower key)) h).

(** [key in h]. *)
Definition contains (h : Headers) (key : string) : bool :=
  existsb (fun kv => String.eqb (Str.lower (fst kv)) (Str.lower key)) h.

(** [h[key]]; [None] stands for [KeyError]. *)
Definition getitem (h : Headers) (key : string) : option string :=
  match values h key with
  | [] => None
  | vs => Some (Str.join ", " vs)
  end.

(** [h.get(key)], with Python's [None] default. *)
Definition get (h : Headers) (key : string) : option string :=
  getitem h key.

(** [h[key] = value]: the first entry of that name is replaced in place
    and the others are dropped; a new name is appended. *)
Fixpoint drop_key (h : Headers) (key : string) : Headers :=
  match h with
  | [] => []
  | (k, v) :: rest =>
      if String.eqb (Str.lower k) (Str.lower key) then drop_key rest key
      else (k, v) :: drop_key rest key
  end.

Fixpoint setitem (h : Headers) (key value : string) : Headers :=
  match h with
  | [] => [(key, value)]
  | (k, v) :: rest =>
      if String.eqb (Str.lower k) (Str.lower key)
      then (key, value) :: drop_key rest key
      else (k, v) :: setitem rest key value
  end.

End HeadersOps.

(** ** Errors and results *)

(** Modelled from the spec: [postgrest.exceptions.APIError] is not part of
    the sources at hand.  The spec's error model is built from a JSON object
    with optional [message], [code], [details] and [hint] fields, a missing
    field being left absent ([JNull], Python's [None]) and never defaulted
    to the empty string. *)
Record APIError : Type := mkAPIError {
  message : JSON;
  code : JSON;
  hint : JSON;
  details : JSON
}.

(** The four fields of the error model, by name. *)
Definition error_fields : list (string * (APIError -> JSON)) :=
  [("message", message); ("code", code); ("hint", hint); ("details", details)].

(** The exceptions that can cross [execute]. *)
Inductive exn : Type :=
| APIError_exn (e : APIError)          (* postgrest.exceptions.APIError *)
| ValidationError                      (* pydantic.ValidationError *)
| JSONDecodeError (doc : string)       (* raised by Response.json(); [doc] is the text that did not parse *)
| UnboundLocalError (name : string)    (* a local read before assignment *)
| TypeError                            (* [in] on a value that is no container *)
| AttributeError (attr : string)       (* a method looked up on the wrong type *)
| OtherError (what : string).          (* anything else, e.g. a transport failure *)

Inductive outcome (A : Type) : Type :=
| Return (a : A)
| Raise (e : exn).
Arguments Return {A} a.
Arguments Raise {A} e.

#[global] Instance outcome_ret : MRet outcome := fun A a => Return a.
#[global] Instance outcome_bind : MBind outcome := fun A B k m =>
  match m with
  | Return a => k a
  | Raise e => Raise e
  end.

(** [try: body / except <clause>: handler]: the handler answers [None] for
    an exception its clause does not match, which then propagates. *)
Definition try_except {A} (body : outcome A) (handler : exn -> option (outcome A))
  : outcome A :=
  match body with
  | Return a => Return a
  | Raise e =>
      match handler e with
      | Some recovered => recovered
      | None => Raise e
      end
  end.

Module APIErrorOps.

(** Modelled from the spec: [APIError(error)] reads the four optional
    fields off the JSON object [error]; a body that is not an object has no
    fields to read, which Python reports as an [AttributeError] on [get]. *)
Definition init (error : JSON) : outcome APIError :=
  match error with
  | JObj members =>
      Return {| message := Py.dict_get members "message";
                code := Py.dict_get members "code";
                hint := Py.dict_get members "hint";
                details := Py.dict_get members "details" |}
  | _ => Raise (AttributeError "get")
  end.

(** [raise APIError(error)]. *)
Definition raise_from {A} (error : JSON) : outcome A :=
  e ← init error; Raise (APIError_exn e).

End APIErrorOps.

(** Modelled from the spec: [postgrest.base_request_builder.APIResponse] is
    not part of the sources at hand.  The spec's response envelope has a
    [data] value, an optional [count] and an optional [error]; [JNull]
    (Python's [None]) is the absent value. *)
Record APIResponse : Type := mkAPIResponse {
  data : JSON;
  error : JSON;
  count : JSON
}.

Module APIResponseOps.

(** Modelled from the spec: [APIResponse.from_dict(d)] builds the envelope
    from the [data], [error] and [count] entries of [d]. *)
Definition from_dict (d : list (string * JSON)) : APIResponse :=
  {| data := Py.dict_get d "data";
     error := Py.dict_get d "error";
     count := Py.dict_get d "count" |}.

End APIResponseOps.

(** ** The HTTP client *)

Definition QueryParams : Type := list (string * string).

(** What [session.request(method, path, json=, params=, headers=)] is
    called with. *)
Record HttpRequest : Type := mkHttpRequest {
  req_method : string;
  req_path : string;
  req_json : JSON;
  req_params : QueryParams;
  req_headers : Headers
}.

(** The content of a response: either it decodes to a JSON value, or it is
    a raw text that is not valid JSON. *)
Inductive Body : Type :=
| Valid (j : JSON)
| Invalid (raw : string).

(** An [httpx.Response]. *)
Record Response : Type := mkResponse {
  status_code : Z;
  resp_headers : Headers;
  content : Body
}.

(** [r.json()]. *)
Definition Response_json (r : Response) : outcome JSON :=
  match content r with
  | Valid j => Return j
  | Invalid raw => Raise (JSONDecodeError raw)
  end.

(** The already configured client: its [request] operation answers with a
    response or fails. *)
Definition AsyncClient : Type := HttpRequest -> outcome Response.

(** A computation that talks to the client: the requests it has sent, in
    order, and how it ended. *)
Definition Exec (A : Type) : Type := (list HttpRequest * outcome A)%type.

Definition sent {A} (x : Exec A) : list HttpRequest := fst x.
Definition result {A} (x : Exec A) : outcome A := snd x.

#[global] Instance Exec_ret : MRet Exec := fun A a => ([], Return a).
#[global] Instance Exec_bind : MBind Exec := fun A B k m =>
  match m with
  | (tr, Return a) => let '(tr', r) := k a in ((tr ++ tr')%list, r)
  | (tr, Raise e) => (tr, Raise e)
  end.

(** [await session.request(...)]. *)
Definition request (session : AsyncClient) (req : HttpRequest) : Exec Response :=
  ([req], session req).

(** A step that does not touch the client. *)
Definition pure_step {A} (o : outcome A) : Exec A := ([], o).

(** [try/except] around a computation that talks to the client. *)
Definition Exec_try {A} (body : Exec A) (handler : exn -> option (Exec A)) : Exec A :=
  match body with
  | (tr, Return a) => (tr, Return a)
  | (tr, Raise e) =>
      match handler e with
      | Some recover => let '(tr', r) := recover in ((tr ++ tr')%list, r)
      | None => (tr, Raise e)
      end
  end.

(** [needle in v] for a string [needle]: substring of a string, element of
    a list, key of a dict; any other value is not a container. *)
Definition py_in (needle : string) (v : JSON) : outcome bool :=
  match v with
  | JStr s => Return (Str.contains needle s)
  | JArr items => Return (existsb (Py.eq_str needle) items)
  | JObj members => Return (Py.dict_has members needle)
  | _ => Raise TypeError
  end.

(** ** The response model, as far as [execute] depends on it

    [APIResponse.from_http_request_response] lives in
    [postgrest/base_request_builder.py], which is not part of the sources at
    hand; [execute] is embedded over any implementation of it. *)
Class ResponseModel : Type := {
  from_http_request_response : Response -> outcome APIResponse
}.

(** The object store: every [Headers] object a chain refers to. *)
Abbreviation loc := positive.
Abbreviation Store := (gmap positive Headers).

(** ** AsyncQueryRequestBuilder *)

Module AsyncQueryRequestBuilder.

Record t : Type := mk {
  session : AsyncClient;
  path : string;
  http_method : string;
  headers : loc;
  params : QueryParams;
  json : JSON
}.

(** The one request [execute] sends. *)
Definition outgoing (σ : Store) (self : t) : HttpRequest :=
  {| req_method := http_method self;
     req_path := path self;
     req_json := json self;
     req_params := params self;
     req_headers := σ !!! headers self |}.

(** [200 <= r.status_code <= 299]. *)
Definition ok (r : Response) : bool :=
  (200 <=? status_code r) && (status_code r <=? 299).

(** The [try] statement of [execute], once the response [r] is there. *)
Definition interpret {M : ResponseModel} (r : Response) : outcome APIResponse :=
  try_except
    (if ok r
     then from_http_request_response r
     else error ← Response_json r; APIErrorOps.raise_from error)
    (fun e =>
       match e with
       | ValidationError => Some (error ← Response_json r; APIErrorOps.raise_from error)
       | _ => None
       end).

Definition execute {M : ResponseModel} (σ : Store) (self : t) : Exec APIResponse :=
  r ← request (session self) (outgoing σ self);
  pure_step (interpret r).

End AsyncQueryRequestBuilder.

(** ** AsyncMaybeSingleRequestBuilder *)

Module AsyncMaybeSingleRequestBuilder.

(** [e.details and "Results contain 0 rows" in e.details], as a condition. *)
Definition zero_rows_signal (e : APIError) : outcome bool :=
  if Py.truthy (details e)
  then py_in "Results contain 0 rows" (details e)
  else Return false.

(** How the [try] statement of [execute] is left: by its [return], or by
    falling through to the statement after it with the local [r] assigned
    or not. *)
Inductive flow : Type :=
| Returned (v : APIResponse)
| FellThrough (r : option APIResponse).

Definition empty_envelope : APIResponse :=
  APIResponseOps.from_dict
    [("data", JNull); ("error", JNull); ("count", JNum 0)].

Definition try_statement {M : ResponseModel} (σ : Store)
    (self : AsyncQueryRequestBuilder.t) : Exec flow :=
  Exec_try
    (r ← AsyncQueryRequestBuilder.execute σ self;
     mret (FellThrough (Some r)))
    (fun exc =>
       match exc with
       | APIError_exn e =>
           Some (pure_step
                   (hit ← zero_rows_signal e;
                    if (hit : bool) then Return (Returned empty_envelope)
                    else Return (FellThrough None)))
       | _ => None
       end).

Definition execute {M : ResponseModel} (σ : Store)
    (self : AsyncQueryRequestBuilder.t) : Exec APIResponse :=
  f ← try_statement σ self;
  match f with
  | Returned v => mret v
  | FellThrough (Some r) => mret r
  | FellThrough None => pure_step (Raise (UnboundLocalError "r"))
  end.

End AsyncMaybeSingleRequestBuilder.

(** The abstract [QueryRequestBuilder]: [execute] dispatches on the class
    of the object. *)
Inductive QueryRequestBuilder : Type :=
| an_AsyncQueryRequestBuilder (b : AsyncQueryRequestBuilder.t)
| an_AsyncMaybeSingleRequestBuilder (b : AsyncQueryRequestBuilder.t).

Definition QueryRequestBuilder_execute {M : ResponseModel} (σ : Store)
    (b : QueryRequestBuilder) : Exec APIResponse :=
  match b with
  | an_AsyncQueryRequestBuilder b => AsyncQueryRequestBuilder.execute σ b
  | an_AsyncMaybeSingleRequestBuilder b => AsyncMaybeSingleRequestBuilder.execute σ b
  end.

(** ** AsyncQueryFactory *)

Module AsyncQueryFactory.

Record t : Type := mk {
  session : AsyncClient;
  path : string;
  http_method : string;
  headers : loc;
  params : QueryParams;
  json : JSON
}.

Definition object_json : string := "application/vnd.pgrst.object+json".

Definition is_single (σ : Store) (self : t) : bool :=
  match HeadersOps.get (σ !!! headers self) "Accept" with
  | Some v => String.eqb v object_json
  | None => false
  end.

(** [cond] of [is_maybe_single]; the subscript is only evaluated when the
    membership test has succeeded, so its [KeyError] ([None]) cannot occur. *)
Definition marker_cond (h : Headers) : bool :=
  HeadersOps.contains h "x-maybeSingle" &&
  match HeadersOps.getitem h "x-maybeSingle" with
  | Some v => String.eqb (Str.lower v) "true"
  | None => false
  end.

Definition is_maybe_single (σ : Store) (self : t) : bool :=
  let cond := marker_cond (σ !!! headers self) in
  is_single σ self && cond.

Definition fields (self : t) : AsyncQueryRequestBuilder.t :=
  {| AsyncQueryRequestBuilder.headers := headers self;
     AsyncQueryRequestBuilder.http_method := http_method self;
     AsyncQueryRequestBuilder.json := json self;
     AsyncQueryRequestBuilder.params := params self;
     AsyncQueryRequestBuilder.path := path self;
     AsyncQueryRequestBuilder.session := session self |}.

(** The (method, params, headers, body) tuple the chain stands for. *)
Definition assembled (σ : Store) (self : t)
  : string * QueryParams * Headers * JSON :=
  (http_method self, params self, σ !!! headers self, json self).

Definition request_builder (σ : Store) (self : t) : QueryRequestBuilder :=
  if is_maybe_single σ self
  then an_AsyncMaybeSingleRequestBuilder (fields self)
  else an_AsyncQueryRequestBuilder (fields self).

Definition execute {M : ResponseModel} (σ : Store) (self : t) : Exec APIResponse :=
  QueryRequestBuilder_execute σ (request_builder σ self).

End AsyncQueryFactory.

(** ** Parts of the repository that are described by the spec only *)

Module SpecModel.

(** Decimal digits of a [Content-Range] total. *)
Definition digit (c : ascii) : option Z :=
  let n := nat_of_ascii c in
  if ((48 <=? n) && (n <=? 57))%nat then Some (Z.of_nat (n - 48)) else None.

Fixpoint decimal_from (acc : Z) (s : string) : option Z :=
  match s with
  | EmptyString => Some acc
  | String c s' =>
      match digit c with
      | Some d => decimal_from (10 * acc + d) s'
      | None => None
      end
  end.

Definition decimal (s : string) : option Z :=
  match s with
  | EmptyString => None
  | _ => decimal_from 0 s
  end.

(** The text after the first ["/"]. *)
Fixpoint after_slash (s : string) : option string :=
  match s with
  | EmptyString => None
  | String c s' => if Ascii.eqb c "/"%char then Some s' else after_slash s'
  end.

(** [<start>-<end>/<total>]: the total, absent when it is [*] or not there. *)
Definition count_of_content_range (v : string) : JSON :=
  match after_slash v with
  | Some total =>
      match decimal total with
      | Some n => JNum n
      | None => JNull
      end
  | None => JNull
  end.

(** Modelled from the spec: [APIResponse.from_http_request_response], which
    is missing from the sources.  The body is parsed as JSON and becomes
    [data]; a body that does not parse fails with an error built from the raw
    text; [count] is the total of the [Content-Range] header, absent when
    the header is absent. *)
Definition from_response (r : Response) : outcome APIResponse :=
  match content r with
  | Invalid raw =>
      Raise (APIError_exn {| message := JStr raw; code := JNull;
                             hint := JNull; details := JNull |})
  | Valid j =>
      Return {| data := j;
                error := JNull;
                count := match HeadersOps.get (resp_headers r) "Content-Range" with
                         | Some v => count_of_content_range v
                         | None => JNull
                         end |}
  end.

Definition response_model : ResponseModel :=
  {| from_http_request_response := from_response |}.

(** Modelled from the spec: the two terminal chain calls of the missing
    [BaseSelectRequestBuilder].  [single()] overwrites [Accept] in the
    chain's own [Headers] object; [maybe_single()] additionally sets the
    marker header. *)
Definition single (self : AsyncQueryFactory.t) (σ : Store) : Store :=
  let l := AsyncQueryFactory.headers self in
  <[l := HeadersOps.setitem (σ !!! l) "Accept" AsyncQueryFactory.object_json]> σ.

Definition maybe_single (self : AsyncQueryFactory.t) (σ : Store) : Store :=
  let l := AsyncQueryFactory.headers self in
  let σ1 := single self σ in
  <[l := HeadersOps.setitem (σ1 !!! l) "x-maybeSingle" "true"]> σ1.

(** Modelled from the spec: the enumerations of [postgrest/types.py] and
    [postgrest/base_request_builder.py]. *)
Inductive CountMethod : Type := exact | planned | estimated.
Inductive ReturnMethod : Type := minimal | representation.

Definition CountMethod_value (c : CountMethod) : string :=
  match c with
  | exact => "exact"
  | planned => "planned"
  | estimated => "estimated"
  end.

Definition ReturnMethod_value (r : ReturnMethod) : string :=
  match r with
  | minimal => "minimal"
  | representation => "representation"
  end.

(** The [Prefer] tokens in the spec's order: count, return, resolution. *)
Definition count_token (count : option CountMethod) : list string :=
  match count with
  | Some c => ["count=" ++ CountMethod_value c]
  | None => []
  end.

Definition resolution_token (resolution : option string) : list string :=
  match resolution with
  | Some r => ["resolution=" ++ r]
  | None => []
  end.

Definition prefer (count : option CountMethod) (returning : ReturnMethod)
    (resolution : option string) : string :=
  Str.join ","
    (List.app (count_token count)
       (("return=" ++ ReturnMethod_value returning) :: resolution_token resolution)).

(** [Headers({...})]: a new object, at a location the store does not use. *)
Definition new_headers (h : Headers) (σ : Store) : loc * Store :=
  let l := fresh (dom σ) in (l, <[l := h]> σ).

(** Modelled from the spec: [pre_insert] and [pre_delete] of the missing
    [postgrest/base_request_builder.py]: stateless, each call returning a
    fresh (method, params, headers, body) tuple. *)
Definition pre_insert (json : JSON) (count : option CountMethod)
    (returning : ReturnMethod) (upsert : bool) (σ : Store)
  : (string * QueryParams * loc * JSON) * Store :=
  let resolution := if upsert then Some "merge-duplicates" else None in
  let '(l, σ') := new_headers [("Prefer", prefer count returning resolution)] σ in
  (("POST", [], l, json), σ').

Definition pre_delete (count : option CountMethod) (returning : ReturnMethod)
    (σ : Store) : (string * QueryParams * loc * JSON) * Store :=
  let '(l, σ') := new_headers [("Prefer", prefer count returning None)] σ in
  (("DELETE", [], l, JObj []), σ').

End SpecModel.

(** ** AsyncRequestBuilder *)

Module AsyncRequestBuilder.

Record t : Type := mk {
  session : AsyncClient;
  path : string
}.

Definition insert (self : t) (json : JSON) (count : option SpecModel.CountMethod)
    (returning : SpecModel.ReturnMethod) (upsert : bool) (σ : Store)
  : AsyncQueryFactory.t * Store :=
  let '((method, params, headers, json), σ') :=
    SpecModel.pre_insert json count returning upsert σ in
  (AsyncQueryFactory.mk (session self) (path self) method headers params json, σ').

(** The [AsyncFilterRequestBuilder] that [delete] returns is the factory
    with the filter methods mixed in; [AsyncQueryFactory.__init__] runs last
    and sets the six attributes. *)
Definition delete (self : t) (count : option SpecModel.CountMethod)
    (returning : SpecModel.ReturnMethod) (σ : Store)
  : AsyncQueryFactory.t * Store :=
  let '((method, params, headers, json), σ') :=
    SpecModel.pre_delete count returning σ in
  (AsyncQueryFactory.mk (session self) (path self) method headers params json, σ').

End AsyncRequestBuilder.

(** ** The spec's reading of the headers *)

Module Spec.

(** The tagged strategy of the spec's design notes. *)
Inductive Strategy : Type := Plain | Single | MaybeSingle.

(** Single-row mode: [headers["Accept"]] is the object media type. *)
Definition single_row_mode (h : Headers) : Prop :=
  HeadersOps.get h "Accept" = Some "application/vnd.pgrst.object+json".

(** The marker header signals maybe-single: it is there and says true. *)
Definition marker_signals (h : Headers) : Prop :=
  exists v, HeadersOps.getitem h "x-maybeSingle" = Some v /\ Str.lower v = "true".

(** Maybe-single mode: single-row mode with the marker. *)
Definition maybe_single_mode (h : Headers) : Prop :=
  single_row_mode h /\ marker_signals h.

(** When a headers state belongs to a strategy. *)
Definition in_strategy (h : Headers) (s : Strategy) : Prop :=
  match s with
  | Plain => ~ single_row_mode h
  | Single => single_row_mode h /\ ~ marker_signals h
  | MaybeSingle => maybe_single_mode h
  end.

End Spec.

(** ** Concrete servers and chains *)

Module Sample.

(** PostgREST's answer to a single-object request that matched no row. *)
Definition zero_rows_details : string :=
  "Results contain 0 rows, application/vnd.pgrst.object+json requires 1 row".

Definition zero_rows : Response :=
  {| status_code := 406;
     resp_headers := [("Content-Type", "application/json")];
     content := Valid (JObj [("code", JStr "PGRST116");
                             ("details", JStr zero_rows_details);
                             ("hint", JNull);
                             ("message", JStr "JSON object requested, multiple (or no) rows returned")]) |}.

Definition not_found : Response :=
  {| status_code := 404;
     resp_headers := [];
     content := Valid (JObj [("message", JStr "not found")]) |}.

Definition moved : Response :=
  {| status_code := 302;
     resp_headers := [("Location", "/elsewhere")];
     content := Valid (JObj [("message", JStr "moved"); ("code", JStr "302")]) |}.

Definition bad_gateway : Response :=
  {| status_code := 502;
     resp_headers := [("Content-Type", "text/html")];
     content := Invalid "<html>Bad Gateway</html>" |}.

Definition two_rows : Response :=
  {| status_code := 200;
     resp_headers := [("Content-Range", "0-1/2")];
     content := Valid (JArr [JObj [("a", JNum 1)]; JObj [("a", JNum 2)]]) |}.

(** A server that answers every request with [r]. *)
Definition always (r : Response) : AsyncClient := fun _ => Return r.

(** One [Headers] object per mode. *)
Definition plain_headers : Headers := [("Prefer", "count=exact")].
Definition single_headers : Headers :=
  HeadersOps.setitem plain_headers "Accept" AsyncQueryFactory.object_json.
Definition maybe_single_headers : Headers :=
  HeadersOps.setitem single_headers "x-maybeSingle" "true".

Definition store : Store :=
  {[ 1%positive := plain_headers;
     2%positive := single_headers;
     3%positive := maybe_single_headers ]}.

Definition chain (session : AsyncClient) (headers : loc) : AsyncQueryFactory.t :=
  AsyncQueryFactory.mk session "/countries" "GET" headers [("select", "*")] (JObj []).

Definition plain_chain (session : AsyncClient) := chain session 1%positive.
Definition single_chain (session : AsyncClient) := chain session 2%positive.
Definition maybe_single_chain (session : AsyncClient) := chain session 3%positive.

End Sample.

(** ** The verb entry points over any request assembly

    [pre_select], [pre_insert], [pre_upsert], [pre_update] and [pre_delete]
    live in [postgrest/base_request_builder.py]; the entry points of
    [AsyncRequestBuilder] are embedded here over any implementation of them.
    Each returns the (method, params, headers, json) tuple, the headers being
    an object of the store, and may allocate in the store. *)

Definition Assembled : Type := (string * QueryParams * loc * JSON)%type.

Class RequestAssembly : Type := {
  pre_select : list string -> option SpecModel.CountMethod ->
               Store -> Assembled * Store;
  pre_insert : JSON -> option SpecModel.CountMethod -> SpecModel.ReturnMethod ->
               bool -> Store -> Assembled * Store;
  pre_upsert : JSON -> option SpecModel.CountMethod -> SpecModel.ReturnMethod ->
               bool -> Store -> Assembled * Store;
  pre_update : JSON -> option SpecModel.CountMethod -> SpecModel.ReturnMethod ->
               Store -> Assembled * Store;
  pre_delete : option SpecModel.CountMethod -> SpecModel.ReturnMethod ->
               Store -> Assembled * Store
}.

Module Verbs.

(** [AsyncSelectRequestBuilder] and [AsyncFilterRequestBuilder] are the
    factory with the select and filter methods mixed in; in both,
    [AsyncQueryFactory.__init__] runs last and sets the six attributes. *)
Definition select {A : RequestAssembly} (self : AsyncRequestBuilder.t)
    (columns : list string) (count : option SpecModel.CountMethod) (σ : Store)
  : AsyncQueryFactory.t * Store :=
  let '((method, params, headers, json), σ') := pre_select columns count σ in
  (AsyncQueryFactory.mk (AsyncRequestBuilder.session self)
     (AsyncRequestBuilder.path self) method headers params json, σ').

Definition insert {A : RequestAssembly} (self : AsyncRequestBuilder.t)
    (json : JSON) (count : option SpecModel.CountMethod)
    (returning : SpecModel.ReturnMethod) (upsert : bool) (σ : Store)
  : AsyncQueryFactory.t * Store :=
  let '((method, params, headers, json), σ') :=
    pre_insert json count returning upsert σ in
  (AsyncQueryFactory.mk (AsyncRequestBuilder.session self)
     (AsyncRequestBuilder.path self) method headers params json, σ').

Definition upsert {A : RequestAssembly} (self : AsyncRequestBuilder.t)
    (json : JSON) (count : option SpecModel.CountMethod)
    (returning : SpecModel.ReturnMethod) (ignore_duplicates : bool) (σ : Store)
  : AsyncQueryFactory.t * Store :=
  let '((method, params, headers, json), σ') :=
    pre_upsert json count returning ignore_duplicates σ in
  (AsyncQueryFactory.mk (AsyncRequestBuilder.session self)
     (AsyncRequestBuilder.path self) method headers params json, σ').

Definition update {A : RequestAssembly} (self : AsyncRequestBuilder.t)
    (json : JSON) (count : option SpecModel.CountMethod)
    (returning : SpecModel.ReturnMethod) (σ : Store)
  : AsyncQueryFactory.t * Store :=
  let '((method, params, headers, json), σ') :=
    pre_update json count returning σ in
  (AsyncQueryFactory.mk (AsyncRequestBuilder.session self)
     (AsyncRequestBuilder.path self) method headers params json, σ').

Definition delete {A : RequestAssembly} (self : AsyncRequestBuilder.t)
    (count : option SpecModel.CountMethod)
    (returning : SpecModel.ReturnMethod) (σ : Store)
  : AsyncQueryFactory.t * Store :=
  let '((method, params, headers, json), σ') := pre_delete count returning σ in
  (AsyncQueryFactory.mk (AsyncRequestBuilder.session self)
     (AsyncRequestBuilder.path self) method headers params json, σ').

(** The request that stands for an assembled tuple at a path. *)
Definition request_of (path : string) (a : Assembled) (σ : Store) : HttpRequest :=
  let '(method, params, headers, json) := a in
  {| req_method := method;
     req_path := path;
     req_json := json;
     req_params := params;
     req_headers := σ !!! headers |}.

(** A chain runs as an assembled tuple for a builder: the store is the one
    the assembly left, the chain is bound to the builder's client and path,
    and executing it sends the tuple's request to that path. *)
Definition runs_as {M : ResponseModel} (self : AsyncRequestBuilder.t)
    (assembled : Assembled * Store) (made : AsyncQueryFactory.t * Store) : Prop :=
  snd made = snd assembled /\
  AsyncQueryFactory.session (fst made) = AsyncRequestBuilder.session self /\
  AsyncQueryFactory.path (fst made) = AsyncRequestBuilder.path self /\
  sent (AsyncQueryFactory.execute (snd made) (fst made))
    = [request_of (AsyncRequestBuilder.path self) (fst assembled) (snd assembled)].

End Verbs.

(** ** More sample data *)

Module Sample2.

(** Modelled from the spec: the three assembly functions that the claims do
    not need.  [pre_select] is a GET whose [select] parameter is the
    comma-joined list of the columns, each stripped of surrounding blanks,
    with [Prefer: count=<mode>] when a count is asked for; [pre_upsert] is
    [pre_insert] with the resolution [ignore-duplicates] when requested and
    [merge-duplicates] otherwise; [pre_update] is a PATCH with the changes
    as body. *)
Definition is_space (c : ascii) : bool :=
  let n := nat_of_ascii c in ((n =? 32) || ((9 <=? n) && (n <=? 13)))%nat.

Fixpoint lstrip (s : string) : string :=
  match s with
  | EmptyString => EmptyString
  | String c s' => if is_space c then lstrip s' else s
  end.

Fixpoint rstrip (s : string) : string :=
  match s with
  | EmptyString => EmptyString
  | String c s' =>
      match rstrip s' with
      | EmptyString => if is_space c then EmptyString else String c EmptyString
      | kept => String c kept
      end
  end.

Definition strip (s : string) : string := rstrip (lstrip s).

Definition pre_select (columns : list string)
    (count : option SpecModel.CountMethod) (σ : Store) : Assembled * Store :=
  let h := match count with
           | Some c => [("Prefer", "count=" ++ SpecModel.CountMethod_value c)]
           | None => []
           end in
  let '(l, σ') := SpecModel.new_headers h σ in
  (("GET", [("select", Str.join "," (List.map strip columns))], l, JObj []), σ').

Definition pre_upsert (json : JSON) (count : option SpecModel.CountMethod)
    (returning : SpecModel.ReturnMethod) (ignore_duplicates : bool) (σ : Store)
  : Assembled * Store :=
  let resolution := if ignore_duplicates then "ignore-duplicates"
                    else "merge-duplicates" in
  let '(l, σ') :=
    SpecModel.new_headers
      [("Prefer", SpecModel.prefer count returning (Some resolution))] σ in
  (("POST", [], l, json), σ').

Definition pre_update (json : JSON) (count : option SpecModel.CountMethod)
    (returning : SpecModel.ReturnMethod) (σ : Store) : Assembled * Store :=
  let '(l, σ') :=
    SpecModel.new_headers [("Prefer", SpecModel.prefer count returning None)] σ in
  (("PATCH", [], l, json), σ').

Definition assembly : RequestAssembly :=
  Build_RequestAssembly pre_select SpecModel.pre_insert pre_upsert pre_update
    SpecModel.pre_delete.

(** A response model that refuses an error object as data. *)
Definition strict_model : ResponseModel :=
  {| from_http_request_response := fun r =>
       match content r with
       | Valid (JObj members) =>
           if Py.dict_has members "message" then Raise ValidationError
           else SpecModel.from_response r
       | _ => SpecModel.from_response r
       end |}.

(** A 200 answer that carries an error object. *)
Definition error_in_success : Response :=
  {| status_code := 200;
     resp_headers := [];
     content := Valid (JObj [("message", JStr "permission denied");
                             ("code", JStr "42501")]) |}.

(** An answer whose status is a server error and whose details carry the
    zero-rows text. *)
Definition zero_rows_500 : Response :=
  {| status_code := 500;
     resp_headers := [];
     content := Valid (JObj [("details", JStr Sample.zero_rows_details)]) |}.

(** A client whose connection fails. *)
Definition down : AsyncClient := fun _ => Raise (OtherError "ConnectError").

(** A client whose call itself raises a validation error. *)
Definition invalid_call : AsyncClient := fun _ => Raise ValidationError.

End Sample2.

(** * Properties *)

(** ** Strings *)

Lemma startswith_spec needle hay :
  Str.startswith needle hay = true <-> exists post, hay = needle ++ post.
Proof.
  revert hay. induction needle as [|a needle IH]; intros hay; simpl.
  - split; [intros _; exists hay; reflexivity | reflexivity].
  - destruct hay as [|b hay].
    + split; [discriminate | intros [post Hpost]; discriminate].
    + rewrite andb_true_iff, Ascii.eqb_eq, IH. split.
      * intros [-> [post ->]]. exists post. reflexivity.
      * intros [post Hpost]. injection Hpost as -> ->. eauto.
Qed.

Lemma contains_spec needle hay :
  Str.contains needle hay = true <-> Str.substring_of needle hay.
Proof.
  unfold Str.substring_of. induction hay as [|b hay IH].
  - simpl. rewrite orb_false_r, startswith_spec. split.
    + intros [post Hpost]. exists "", post. exact Hpost.
    + intros [[|c pre] [post Hpost]]; [eauto | discriminate].
  - cbn [Str.contains]. rewrite orb_true_iff, startswith_spec, IH. split.
    + intros [[post Hpost] | [pre [post Hpost]]].
      * exists "", post. exact Hpost.
      * exists (String b pre), post. simpl. rewrite Hpost. reflexivity.
    + intros [[|c pre] [post Hpost]].
      * left. exists post. exact Hpost.
      * right. simpl in Hpost. injection Hpost as _ Hpost. eauto.
Qed.

(** A string with a non-empty substring is not empty. *)
Lemma substring_nonempty needle hay :
  needle <> "" -> Str.substring_of needle hay -> hay <> "".
Proof.
  intros Hn [[|c pre] [post ->]]; simpl; [|discriminate].
  destruct needle; [congruence | discriminate].
Qed.

(** ** The shape of an execution *)

Section Execution.

Context {M : ResponseModel}.

(** [execute] sends one request and interprets the answer. *)
Lemma execute_unfold σ (b : AsyncQueryRequestBuilder.t) :
  AsyncQueryRequestBuilder.execute σ b =
  ([AsyncQueryRequestBuilder.outgoing σ b],
   AsyncQueryRequestBuilder.session b (AsyncQueryRequestBuilder.outgoing σ b)
     ≫= AsyncQueryRequestBuilder.interpret).
Proof.
  unfold AsyncQueryRequestBuilder.execute, request, pure_step, mbind, Exec_bind.
  destruct (AsyncQueryRequestBuilder.session b _); reflexivity.
Qed.

(** [raise APIError(...)] never returns. *)
Lemma raise_from_raises {A} (error : JSON) (a : A) :
  APIErrorOps.raise_from error <> Return a.
Proof.
  unfold APIErrorOps.raise_from. destruct (APIErrorOps.init error); discriminate.
Qed.

Lemma json_then_raise_raises {A} (r : Response) (a : A) :
  (error ← Response_json r; APIErrorOps.raise_from error) <> Return a.
Proof.
  destruct (Response_json r) as [j|e]; simpl; [apply raise_from_raises | discriminate].
Qed.

(** The range test, as arithmetic. *)
Lemma ok_spec (r : Response) :
  AsyncQueryRequestBuilder.ok r = true <-> 200 <= status_code r <= 299.
Proof. unfold AsyncQueryRequestBuilder.ok. lia. Qed.

(** The maybe-single strategy sends what the plain one sends. *)
Lemma maybe_single_sent σ (b : AsyncQueryRequestBuilder.t) :
  sent (AsyncMaybeSingleRequestBuilder.execute σ b) =
  [AsyncQueryRequestBuilder.outgoing σ b].
Proof.
  unfold AsyncMaybeSingleRequestBuilder.execute,
    AsyncMaybeSingleRequestBuilder.try_statement.
  rewrite execute_unfold.
  destruct (AsyncQueryRequestBuilder.session b _ ≫= _) as [v|e]; [reflexivity|].
  destruct e as [e| | | | | |]; try reflexivity.
  cbn. destruct (AsyncMaybeSingleRequestBuilder.zero_rows_signal e) as [[|]|x];
    reflexivity.
Qed.

(** How the maybe-single strategy ends, by how the plain one ends. *)
Lemma maybe_single_result σ (b : AsyncQueryRequestBuilder.t) :
  result (AsyncMaybeSingleRequestBuilder.execute σ b) =
  match result (AsyncQueryRequestBuilder.execute σ b) with
  | Return r => Return r
  | Raise (APIError_exn e) =>
      match AsyncMaybeSingleRequestBuilder.zero_rows_signal e with
      | Return true => Return AsyncMaybeSingleRequestBuilder.empty_envelope
      | Return false => Raise (UnboundLocalError "r")
      | Raise x => Raise x
      end
  | Raise x => Raise x
  end.
Proof.
  unfold AsyncMaybeSingleRequestBuilder.execute,
    AsyncMaybeSingleRequestBuilder.try_statement.
  rewrite execute_unfold.
  destruct (AsyncQueryRequestBuilder.session b _ ≫= _) as [v|e]; [reflexivity|].
  destruct e as [e| | | | | |]; try reflexivity.
  cbn. destruct (AsyncMaybeSingleRequestBuilder.zero_rows_signal e) as [[|]|x];
    reflexivity.
Qed.

(** The factory hands the maybe-single builder out exactly in maybe-single
    mode. *)
Lemma factory_execute_maybe σ (self : AsyncQueryFactory.t) :
  AsyncQueryFactory.is_maybe_single σ self = true ->
  AsyncQueryFactory.execute σ self =
  AsyncMaybeSingleRequestBuilder.execute σ (AsyncQueryFactory.fields self).
Proof.
  intros Hm. unfold AsyncQueryFactory.execute, AsyncQueryFactory.request_builder.
  rewrite Hm. reflexivity.
Qed.

Lemma factory_execute_plain σ (self : AsyncQueryFactory.t) :
  AsyncQueryFactory.is_maybe_single σ self = false ->
  AsyncQueryFactory.execute σ self =
  AsyncQueryRequestBuilder.execute σ (AsyncQueryFactory.fields self).
Proof.
  intros Hm. unfold AsyncQueryFactory.execute, AsyncQueryFactory.request_builder.
  rewrite Hm. reflexivity.
Qed.

(** A string [details] that contains the marker text is the zero-rows
    signal. *)
Lemma zero_rows_signal_of_substring (e : APIError) (d : string) :
  details e = JStr d ->
  Str.substring_of "Results contain 0 rows" d ->
  AsyncMaybeSingleRequestBuilder.zero_rows_signal e = Return true.
Proof.
  intros Hd Hsub. unfold AsyncMaybeSingleRequestBuilder.zero_rows_signal.
  rewrite Hd. simpl.
  assert (Hne : d <> "") by (eapply substring_nonempty; [|exact Hsub]; discriminate).
  apply String.eqb_neq in Hne. rewrite Hne. simpl.
  apply contains_spec in Hsub. rewrite Hsub. reflexivity.
Qed.

End Execution.

(** ** Maybe-single mode *)

(** C1. In maybe-single mode, when the underlying single-strategy execution
    fails with an [APIError] whose [details] contains the text
    "Results contain 0 rows", [execute] does not raise: it returns the
    envelope with [data] null, [error] null and [count] 0. *)
Theorem maybe_single_zero_rows_suppressed {M : ResponseModel} σ
    (self : AsyncQueryFactory.t) (e : APIError) (d : string) :
  AsyncQueryFactory.is_maybe_single σ self = true ->
  result (AsyncQueryRequestBuilder.execute σ (AsyncQueryFactory.fields self))
    = Raise (APIError_exn e) ->
  details e = JStr d ->
  Str.substring_of "Results contain 0 rows" d ->
  result (AsyncQueryFactory.execute σ self)
    = Return {| data := JNull; error := JNull; count := JNum 0 |}.
Proof.
  intros Hmode Hfail Hd Hsub.
  rewrite (factory_execute_maybe _ _ Hmode), maybe_single_result, Hfail.
  rewrite (zero_rows_signal_of_substring e d Hd Hsub). reflexivity.
Qed.

Lemma maybe_single_zero_rows_suppressed_witness :
  let σ := Sample.store in
  let self := Sample.maybe_single_chain (Sample.always Sample.zero_rows) in
  AsyncQueryFactory.is_maybe_single σ self = true /\
  result (AsyncQueryFactory.execute (M := SpecModel.response_model) σ self)
    = Return {| data := JNull; error := JNull; count := JNum 0 |}.
Proof.
  intros σ self. split; [vm_compute; reflexivity|].
  apply (maybe_single_zero_rows_suppressed (M := SpecModel.response_model) σ self
           {| message := JStr "JSON object requested, multiple (or no) rows returned";
              code := JStr "PGRST116"; hint := JNull;
              details := JStr Sample.zero_rows_details |}
           Sample.zero_rows_details).
  - vm_compute; reflexivity.
  - vm_compute; reflexivity.
  - reflexivity.
  - exists "", ", application/vnd.pgrst.object+json requires 1 row". reflexivity.
Defined.

(** An [APIError] that is not the zero-rows signal leaves the [except]
    block without a [return] and without a [raise]; the [return r] after
    the [try] statement then reads a local that was never assigned. *)
Lemma maybe_single_unmatched_error {M : ResponseModel} σ
    (self : AsyncQueryFactory.t) (e : APIError) :
  AsyncQueryFactory.is_maybe_single σ self = true ->
  result (AsyncQueryRequestBuilder.execute σ (AsyncQueryFactory.fields self))
    = Raise (APIError_exn e) ->
  AsyncMaybeSingleRequestBuilder.zero_rows_signal e = Return false ->
  result (AsyncQueryFactory.execute σ self) = Raise (UnboundLocalError "r").
Proof.
  intros Hmode Hfail Hsig.
  rewrite (factory_execute_maybe _ _ Hmode), maybe_single_result, Hfail, Hsig.
  reflexivity.
Qed.

(** Absent [details], or a string that lacks the marker text, is not the
    signal. *)
Lemma zero_rows_signal_absent (e : APIError) :
  details e = JNull ->
  AsyncMaybeSingleRequestBuilder.zero_rows_signal e = Return false.
Proof.
  intros Hd. unfold AsyncMaybeSingleRequestBuilder.zero_rows_signal.
  rewrite Hd. reflexivity.
Qed.

Lemma zero_rows_signal_other_text (e : APIError) (d : string) :
  details e = JStr d ->
  ~ Str.substring_of "Results contain 0 rows" d ->
  AsyncMaybeSingleRequestBuilder.zero_rows_signal e = Return false.
Proof.
  intros Hd Hsub. unfold AsyncMaybeSingleRequestBuilder.zero_rows_signal.
  rewrite Hd. simpl. destruct (negb (String.eqb d "")); [|reflexivity].
  destruct (Str.contains "Results contain 0 rows" d) eqn:Hc; [|reflexivity].
  apply contains_spec in Hc. contradiction.
Qed.

(** C2. In maybe-single mode an error that is not the zero-rows signal is
    to reach the caller unchanged.  On the answer 404 [{message: not found}]
    the plain strategy raises the [APIError] with that message, and the
    maybe-single strategy raises [UnboundLocalError] for its local [r]
    instead. *)
Theorem maybe_single_other_error_replaced :
  let σ := Sample.store in
  let self := Sample.maybe_single_chain (Sample.always Sample.not_found) in
  let plain := AsyncQueryRequestBuilder.execute (M := SpecModel.response_model)
                 σ (AsyncQueryFactory.fields self) in
  AsyncQueryFactory.is_maybe_single σ self = true /\
  result plain
    = Raise (APIError_exn {| message := JStr "not found"; code := JNull;
                             hint := JNull; details := JNull |}) /\
  result (AsyncQueryFactory.execute (M := SpecModel.response_model) σ self)
    = Raise (UnboundLocalError "r") /\
  result (AsyncQueryFactory.execute (M := SpecModel.response_model) σ self)
    <> result plain.
Proof.
  intros σ self plain. repeat split; try (vm_compute; reflexivity).
  vm_compute. discriminate.
Qed.

(** Exceptions other than [APIError] are not caught at all. *)
Lemma maybe_single_foreign_exception {M : ResponseModel} σ
    (self : AsyncQueryFactory.t) (x : exn) :
  AsyncQueryFactory.is_maybe_single σ self = true ->
  result (AsyncQueryRequestBuilder.execute σ (AsyncQueryFactory.fields self))
    = Raise x ->
  (forall e, x <> APIError_exn e) ->
  result (AsyncQueryFactory.execute σ self) = Raise x.
Proof.
  intros Hmode Hfail Hx.
  rewrite (factory_execute_maybe _ _ Hmode), maybe_single_result, Hfail.
  destruct x; try reflexivity. exfalso. eapply Hx. reflexivity.
Qed.

(** ** Classification of the response *)

(** Outside the success range the [try] statement is its [raise]. *)
Lemma interpret_out_of_range {M : ResponseModel} (r : Response) :
  AsyncQueryRequestBuilder.ok r = false ->
  AsyncQueryRequestBuilder.interpret r
  = (error ← Response_json r; APIErrorOps.raise_from error).
Proof.
  intros Hok. unfold AsyncQueryRequestBuilder.interpret. rewrite Hok.
  destruct (Response_json r ≫= _) as [v|e]; [reflexivity|].
  destruct e; reflexivity.
Qed.

(** In the success range the envelope of the response model is returned;
    outside of it [APIError(r.json())] is raised. *)
Lemma execute_by_status {M : ResponseModel} σ
    (self : AsyncQueryRequestBuilder.t) (r : Response) :
  AsyncQueryRequestBuilder.session self (AsyncQueryRequestBuilder.outgoing σ self)
    = Return r ->
  (200 <= status_code r <= 299 ->
   forall env, from_http_request_response r = Return env ->
     result (AsyncQueryRequestBuilder.execute σ self) = Return env) /\
  (~ 200 <= status_code r <= 299 ->
   result (AsyncQueryRequestBuilder.execute σ self)
     = (error ← Response_json r; APIErrorOps.raise_from error)).
Proof.
  intros Hsend. rewrite execute_unfold, Hsend. cbn [result snd mbind outcome_bind].
  destruct (AsyncQueryRequestBuilder.ok r) eqn:Hok.
  - apply ok_spec in Hok as Hin. split; [|intros Hout; contradiction].
    intros _ env Henv. unfold AsyncQueryRequestBuilder.interpret.
    rewrite Hok, Henv. reflexivity.
  - split; [|intros _; apply interpret_out_of_range, Hok].
    intros Hin. apply ok_spec in Hin. congruence.
Qed.

(** [raise APIError(r.json())] for a body that is a JSON object. *)
Lemma raise_from_object (r : Response) (members : list (string * JSON)) :
  content r = Valid (JObj members) ->
  (error ← Response_json r; APIErrorOps.raise_from error)
  = Raise (A := APIResponse)
      (APIError_exn {| message := Py.dict_get members "message";
                       code := Py.dict_get members "code";
                       hint := Py.dict_get members "hint";
                       details := Py.dict_get members "details" |}).
Proof. intros Hbody. unfold Response_json. rewrite Hbody. reflexivity. Qed.

(** Only a status in the success range ends in an envelope, and then in the
    one the response model built. *)
Lemma execute_returns_only_in_range {M : ResponseModel} σ
    (self : AsyncQueryRequestBuilder.t) (r : Response) (env : APIResponse) :
  AsyncQueryRequestBuilder.session self (AsyncQueryRequestBuilder.outgoing σ self)
    = Return r ->
  result (AsyncQueryRequestBuilder.execute σ self) = Return env ->
  200 <= status_code r <= 299 /\ from_http_request_response r = Return env.
Proof.
  intros Hsend. rewrite execute_unfold, Hsend. cbn [result snd mbind outcome_bind].
  unfold AsyncQueryRequestBuilder.interpret.
  destruct (AsyncQueryRequestBuilder.ok r) eqn:Hok; intros Hret.
  - apply ok_spec in Hok. split; [exact Hok|].
    destruct (from_http_request_response r) as [v|e]; [exact Hret|].
    exfalso. destruct e; simpl in Hret; try discriminate.
    exact (json_then_raise_raises r env Hret).
  - exfalso. destruct (Response_json r ≫= _) as [v|e] eqn:Hj.
    + exact (json_then_raise_raises r v Hj).
    + destruct e; simpl in Hret; discriminate.
Qed.

(** C3, amended. [execute] takes the success branch exactly when the status
    is in 200..299.  In that range it returns the [APIResponse] built from
    the response, provided the response model builds one; for every other
    status, 3xx included, it ends as [raise APIError(r.json())] ends, which
    is the [APIError] constructed from the body when the body is a JSON
    object; and it returns an envelope for no status outside the range. *)
Theorem execute_classifies_by_status {M : ResponseModel} σ
    (self : AsyncQueryRequestBuilder.t) (r : Response) :
  AsyncQueryRequestBuilder.session self (AsyncQueryRequestBuilder.outgoing σ self)
    = Return r ->
  (200 <= status_code r <= 299 ->
   forall env, from_http_request_response r = Return env ->
     result (AsyncQueryRequestBuilder.execute σ self) = Return env) /\
  (~ 200 <= status_code r <= 299 ->
   result (AsyncQueryRequestBuilder.execute σ self)
     = (error ← Response_json r; APIErrorOps.raise_from error) /\
   forall members, content r = Valid (JObj members) ->
     result (AsyncQueryRequestBuilder.execute σ self)
       = Raise (APIError_exn
                  {| message := Py.dict_get members "message";
                     code := Py.dict_get members "code";
                     hint := Py.dict_get members "hint";
                     details := Py.dict_get members "details" |})) /\
  (forall env, result (AsyncQueryRequestBuilder.execute σ self) = Return env ->
     200 <= status_code r <= 299 /\ from_http_request_response r = Return env).
Proof.
  intros Hsend.
  destruct (execute_by_status σ self r Hsend) as [Hin Hout].
  split; [exact Hin|]. split.
  - intros Hrange. split; [exact (Hout Hrange)|].
    intros members Hbody. rewrite (Hout Hrange). apply raise_from_object, Hbody.
  - intros env Hret. exact (execute_returns_only_in_range σ self r env Hsend Hret).
Qed.

Lemma execute_classifies_by_status_witness :
  let self := AsyncQueryFactory.fields (Sample.plain_chain (Sample.always Sample.moved)) in
  AsyncQueryRequestBuilder.session self
    (AsyncQueryRequestBuilder.outgoing Sample.store self) = Return Sample.moved /\
  ~ 200 <= status_code Sample.moved <= 299 /\
  result (AsyncQueryRequestBuilder.execute (M := SpecModel.response_model)
            Sample.store self)
    = Raise (APIError_exn {| message := JStr "moved"; code := JStr "302";
                             hint := JNull; details := JNull |}).
Proof.
  intros self.
  assert (Hout : ~ 200 <= status_code Sample.moved <= 299) by (simpl; lia).
  split; [reflexivity|]. split; [exact Hout|].
  destruct (execute_classifies_by_status (M := SpecModel.response_model)
              Sample.store self Sample.moved eq_refl) as (_ & Hother & _).
  exact (proj2 (Hother Hout) _ eq_refl).
Defined.

(** C3 as stated fails on both sides of the range: a 200 answer whose
    envelope fails validation ends in an [APIError], not in a returned
    envelope; and a 502 answer with an HTML body ends in the decoder's
    error, not in an [APIError], whatever the response model. *)
Lemma status_alone_does_not_decide :
  let refused := AsyncQueryFactory.fields
                   (Sample.plain_chain (Sample.always Sample2.error_in_success)) in
  let garbled := AsyncQueryFactory.fields
                   (Sample.plain_chain (Sample.always Sample.bad_gateway)) in
  (200 <= status_code Sample2.error_in_success <= 299 /\
   result (AsyncQueryRequestBuilder.execute (M := Sample2.strict_model)
             Sample.store refused)
   = Raise (APIError_exn {| message := JStr "permission denied";
                            code := JStr "42501";
                            hint := JNull; details := JNull |})) /\
  (~ 200 <= status_code Sample.bad_gateway <= 299 /\
   forall M : ResponseModel,
     result (AsyncQueryRequestBuilder.execute (M := M) Sample.store garbled)
     = Raise (JSONDecodeError "<html>Bad Gateway</html>")) /\
  ~ (forall (M : ResponseModel) σ (b : AsyncQueryRequestBuilder.t) (r : Response),
       AsyncQueryRequestBuilder.session b (AsyncQueryRequestBuilder.outgoing σ b)
         = Return r ->
       200 <= status_code r <= 299 ->
       exists env, result (AsyncQueryRequestBuilder.execute (M := M) σ b)
                   = Return env) /\
  ~ (forall (M : ResponseModel) σ (b : AsyncQueryRequestBuilder.t) (r : Response),
       AsyncQueryRequestBuilder.session b (AsyncQueryRequestBuilder.outgoing σ b)
         = Return r ->
       ~ 200 <= status_code r <= 299 ->
       exists e, result (AsyncQueryRequestBuilder.execute (M := M) σ b)
                 = Raise (APIError_exn e)).
Proof.
  intros refused garbled.
  assert (Hin : 200 <= status_code Sample2.error_in_success <= 299) by (simpl; lia).
  assert (Hout : ~ 200 <= status_code Sample.bad_gateway <= 299) by (simpl; lia).
  split; [split; [exact Hin | vm_compute; reflexivity]|].
  split; [split; [exact Hout | intros M; reflexivity]|].
  split.
  - intros Hclaim.
    destruct (Hclaim Sample2.strict_model Sample.store refused
                Sample2.error_in_success eq_refl Hin) as [env Henv].
    vm_compute in Henv. discriminate.
  - intros Hclaim.
    destruct (Hclaim SpecModel.response_model Sample.store garbled
                Sample.bad_gateway eq_refl Hout) as [e He].
    vm_compute in He. discriminate.
Qed.

(** ** The strategy is a function of the headers *)

(** The subscript of [is_maybe_single] cannot fail behind its guard. *)
Lemma contains_getitem (h : Headers) (key : string) :
  HeadersOps.contains h key = true <-> exists v, HeadersOps.getitem h key = Some v.
Proof.
  unfold HeadersOps.contains, HeadersOps.getitem, HeadersOps.values.
  induction h as [|[k v] h IH]; simpl.
  - split; [discriminate | intros [? ?]; discriminate].
  - destruct (String.eqb (Str.lower k) (Str.lower key)); simpl.
    + split; [eauto | reflexivity].
    + exact IH.
Qed.

Lemma marker_cond_spec (h : Headers) :
  AsyncQueryFactory.marker_cond h = true <-> Spec.marker_signals h.
Proof.
  unfold AsyncQueryFactory.marker_cond, Spec.marker_signals.
  rewrite andb_true_iff, contains_getitem. split.
  - intros [[v Hv] Hlow]. rewrite Hv in Hlow.
    apply String.eqb_eq in Hlow. eauto.
  - intros (v & Hv & Hlow). rewrite Hv. split; [eauto|].
    apply String.eqb_eq. exact Hlow.
Qed.

Lemma is_single_spec σ (self : AsyncQueryFactory.t) :
  AsyncQueryFactory.is_single σ self = true <->
  Spec.single_row_mode (σ !!! AsyncQueryFactory.headers self).
Proof.
  unfold AsyncQueryFactory.is_single, Spec.single_row_mode.
  destruct (HeadersOps.get _ "Accept") as [v|].
  - rewrite String.eqb_eq. unfold AsyncQueryFactory.object_json.
    split; [intros ->; reflexivity | intros [= ->]; reflexivity].
  - split; discriminate.
Qed.

Lemma is_maybe_single_spec σ (self : AsyncQueryFactory.t) :
  AsyncQueryFactory.is_maybe_single σ self = true <->
  Spec.maybe_single_mode (σ !!! AsyncQueryFactory.headers self).
Proof.
  unfold AsyncQueryFactory.is_maybe_single, Spec.maybe_single_mode.
  rewrite andb_true_iff, is_single_spec, marker_cond_spec. reflexivity.
Qed.

(** C4. For every headers state: the request is in single-row mode iff
    [headers["Accept"]] equals "application/vnd.pgrst.object+json"; it is in
    maybe-single mode iff it is in single-row mode and the marker header
    signals maybe-single; and the factory puts it into exactly one of the
    Plain, Single and MaybeSingle strategies, handing out the maybe-single
    builder for MaybeSingle and the plain builder for the other two. *)
Theorem strategy_determined_by_headers σ (self : AsyncQueryFactory.t) :
  let h : Headers := σ !!! AsyncQueryFactory.headers self in
  (AsyncQueryFactory.is_single σ self = true <->
   HeadersOps.get h "Accept" = Some "application/vnd.pgrst.object+json") /\
  (AsyncQueryFactory.is_maybe_single σ self = true <->
   AsyncQueryFactory.is_single σ self = true /\ Spec.marker_signals h) /\
  (exists s : Spec.Strategy,
     Spec.in_strategy h s /\
     (forall s', Spec.in_strategy h s' -> s' = s) /\
     AsyncQueryFactory.request_builder σ self =
       match s with
       | Spec.MaybeSingle => an_AsyncMaybeSingleRequestBuilder (AsyncQueryFactory.fields self)
       | Spec.Single | Spec.Plain => an_AsyncQueryRequestBuilder (AsyncQueryFactory.fields self)
       end).
Proof.
  intros h. split; [apply is_single_spec|].
  split; [rewrite is_maybe_single_spec, is_single_spec; reflexivity|].
  pose proof (is_single_spec σ self) as Hs.
  pose proof (is_maybe_single_spec σ self) as Hm.
  fold h in Hs, Hm. unfold AsyncQueryFactory.request_builder.
  destruct (AsyncQueryFactory.is_maybe_single σ self) eqn:Em.
  - exists Spec.MaybeSingle. apply proj1 in Hm. specialize (Hm eq_refl).
    split; [exact Hm|]. split; [|reflexivity].
    destruct Hm as [Hsingle Hmark].
    intros [| |]; simpl; [tauto | tauto | reflexivity].
  - assert (Hnm : ~ Spec.maybe_single_mode h) by (intros Hx; apply Hm in Hx; discriminate).
    destruct (AsyncQueryFactory.is_single σ self) eqn:Es.
    + exists Spec.Single. apply proj1 in Hs. specialize (Hs eq_refl).
      assert (Hmark : ~ Spec.marker_signals h) by (intros Hx; apply Hnm; split; assumption).
      split; [split; assumption|]. split; [|reflexivity].
      intros [| |]; simpl; [tauto | reflexivity | tauto].
    + assert (Hns : ~ Spec.single_row_mode h) by (intros Hx; apply Hs in Hx; discriminate).
      exists Spec.Plain. split; [exact Hns|]. split; [|reflexivity].
      intros [| |]; simpl; [reflexivity | tauto | unfold Spec.maybe_single_mode; tauto].
Qed.

(** The three strategies all occur. *)
Example sample_strategies :
  Spec.in_strategy Sample.plain_headers Spec.Plain /\
  Spec.in_strategy Sample.single_headers Spec.Single /\
  Spec.in_strategy Sample.maybe_single_headers Spec.MaybeSingle.
Proof.
  split; [|split].
  - cbv. discriminate.
  - split; [reflexivity|]. intros (v & Hv & _). cbv in Hv. discriminate.
  - split; [reflexivity|]. exists "true". split; reflexivity.
Qed.

(** ** Bodies that are not JSON *)

(** C5, amended. For every response whose body is not valid JSON, no
    [APIError] is made from the body: with a status outside 200..299
    [execute] raises the decoder's own [JSONDecodeError], which carries the
    raw text; with a status in 200..299 it ends as the response-model builder
    ends, except that a validation failure of the builder also ends in the
    decoder's [JSONDecodeError]. *)
Theorem malformed_body_raises_decode_error {M : ResponseModel} σ
    (self : AsyncQueryRequestBuilder.t) (r : Response) (raw : string) :
  AsyncQueryRequestBuilder.session self (AsyncQueryRequestBuilder.outgoing σ self)
    = Return r ->
  content r = Invalid raw ->
  (~ 200 <= status_code r <= 299 ->
   result (AsyncQueryRequestBuilder.execute σ self) = Raise (JSONDecodeError raw)) /\
  (200 <= status_code r <= 299 ->
   result (AsyncQueryRequestBuilder.execute σ self)
     = match from_http_request_response r with
       | Raise ValidationError => Raise (JSONDecodeError raw)
       | built => built
       end).
Proof.
  intros Hsend Hbody. rewrite execute_unfold, Hsend. cbn [result snd mbind outcome_bind].
  unfold AsyncQueryRequestBuilder.interpret, Response_json. rewrite Hbody.
  split; intros Hrange.
  - destruct (AsyncQueryRequestBuilder.ok r) eqn:Hok; [|reflexivity].
    apply ok_spec in Hok. contradiction.
  - apply ok_spec in Hrange. rewrite Hrange.
    destruct (from_http_request_response r) as [v|e]; [reflexivity|].
    destruct e; reflexivity.
Qed.

Lemma malformed_body_raises_decode_error_witness :
  let self := AsyncQueryFactory.fields
                (Sample.plain_chain (Sample.always Sample.bad_gateway)) in
  content Sample.bad_gateway = Invalid "<html>Bad Gateway</html>" /\
  ~ 200 <= status_code Sample.bad_gateway <= 299 /\
  result (AsyncQueryRequestBuilder.execute (M := SpecModel.response_model)
            Sample.store self) = Raise (JSONDecodeError "<html>Bad Gateway</html>").
Proof.
  intros self.
  assert (Hout : ~ 200 <= status_code Sample.bad_gateway <= 299) by (simpl; lia).
  split; [reflexivity|]. split; [exact Hout|].
  exact (proj1 (malformed_body_raises_decode_error (M := SpecModel.response_model)
                  Sample.store self Sample.bad_gateway _ eq_refl eq_refl) Hout).
Defined.

(** C5 as stated fails: on the answer 502 with an HTML body the execution
    ends in the decoder's exception, which is no [APIError], whatever the
    response model. *)
Lemma malformed_body_no_typed_error :
  let self := AsyncQueryFactory.fields
                (Sample.plain_chain (Sample.always Sample.bad_gateway)) in
  content Sample.bad_gateway = Invalid "<html>Bad Gateway</html>" /\
  (forall M : ResponseModel,
     result (AsyncQueryRequestBuilder.execute (M := M) Sample.store self)
       = Raise (JSONDecodeError "<html>Bad Gateway</html>")) /\
  ~ (forall (M : ResponseModel) σ (b : AsyncQueryRequestBuilder.t) r raw,
       AsyncQueryRequestBuilder.session b (AsyncQueryRequestBuilder.outgoing σ b)
         = Return r ->
       content r = Invalid raw ->
       exists e, result (AsyncQueryRequestBuilder.execute (M := M) σ b)
                 = Raise (APIError_exn e)).
Proof.
  intros self. split; [reflexivity|]. split; [intros M; reflexivity|].
  intros Hclaim.
  destruct (Hclaim SpecModel.response_model Sample.store self Sample.bad_gateway
              _ eq_refl eq_refl) as [e He].
  vm_compute in He. discriminate.
Qed.

(** ** What is sent *)

(** C6, amended. For every executed request in maybe-single mode exactly one
    request reaches the HTTP client, its headers are the chain's headers as
    they are, and therefore they contain the marker header. *)
Theorem maybe_single_marker_is_sent {M : ResponseModel} σ (self : AsyncQueryFactory.t) :
  AsyncQueryFactory.is_maybe_single σ self = true ->
  exists req,
    sent (AsyncQueryFactory.execute σ self) = [req] /\
    req_headers req = σ !!! AsyncQueryFactory.headers self /\
    HeadersOps.contains (req_headers req) "x-maybeSingle" = true.
Proof.
  intros Hmode. rewrite (factory_execute_maybe _ _ Hmode), maybe_single_sent.
  eexists. split; [reflexivity|]. split; [reflexivity|].
  unfold AsyncQueryFactory.is_maybe_single, AsyncQueryFactory.marker_cond in Hmode.
  apply andb_true_iff in Hmode as [_ Hcond].
  apply andb_true_iff in Hcond as [Hin _]. exact Hin.
Qed.

Lemma maybe_single_marker_is_sent_witness :
  let self := Sample.maybe_single_chain (Sample.always Sample.zero_rows) in
  AsyncQueryFactory.is_maybe_single Sample.store self = true /\
  exists req,
    sent (AsyncQueryFactory.execute (M := SpecModel.response_model) Sample.store self)
      = [req] /\
    req_headers req = Sample.store !!! AsyncQueryFactory.headers self /\
    HeadersOps.contains (req_headers req) "x-maybeSingle" = true.
Proof.
  intros self.
  assert (Hmode : AsyncQueryFactory.is_maybe_single Sample.store self = true)
    by (vm_compute; reflexivity).
  split; [exact Hmode|].
  exact (maybe_single_marker_is_sent (M := SpecModel.response_model)
           Sample.store self Hmode).
Defined.

(** C6 as stated fails: the maybe-single chain sends its marker header. *)
Lemma maybe_single_marker_leaks :
  let self := Sample.maybe_single_chain (Sample.always Sample.zero_rows) in
  AsyncQueryFactory.is_maybe_single Sample.store self = true /\
  (exists req,
     In req (sent (AsyncQueryFactory.execute (M := SpecModel.response_model)
                     Sample.store self)) /\
     HeadersOps.getitem (req_headers req) "x-maybeSingle" = Some "true") /\
  ~ (forall (M : ResponseModel) σ (f : AsyncQueryFactory.t),
       AsyncQueryFactory.is_maybe_single σ f = true ->
       forall req, In req (sent (AsyncQueryFactory.execute (M := M) σ f)) ->
         HeadersOps.contains (req_headers req) "x-maybeSingle" = false).
Proof.
  intros self. split; [vm_compute; reflexivity|]. split.
  - eexists. split; [left; reflexivity | vm_compute; reflexivity].
  - intros Hclaim.
    specialize (Hclaim SpecModel.response_model Sample.store self eq_refl
                  _ (or_introl eq_refl)).
    vm_compute in Hclaim. discriminate.
Qed.

(** ** The error model *)

(** A field is what the body says, and absent when the body does not say. *)
Lemma init_field (members : list (string * JSON)) (e : APIError)
    (name : string) (field : APIError -> JSON) :
  APIErrorOps.init (JObj members) = Return e ->
  In (name, field) error_fields ->
  field e = Py.dict_get members name.
Proof.
  intros [= <-] Hin. unfold error_fields in Hin. simpl in Hin.
  destruct Hin as [[= <- <-] | [[= <- <-] | [[= <- <-] | [[= <- <-] | []]]]];
    reflexivity.
Qed.

(** C7. The answer 404 with the JSON body [{message: not found}] yields the
    error whose [message] is "not found" and whose [code], [details] and
    [hint] are absent; in general a field the error body does not have is
    left absent and is not the empty string. *)
Theorem missing_error_fields_absent {M : ResponseModel} :
  (forall σ (self : AsyncQueryRequestBuilder.t) (r : Response),
     AsyncQueryRequestBuilder.session self (AsyncQueryRequestBuilder.outgoing σ self)
       = Return r ->
     status_code r = 404 ->
     content r = Valid (JObj [("message", JStr "not found")]) ->
     result (AsyncQueryRequestBuilder.execute σ self)
       = Raise (APIError_exn {| message := JStr "not found"; code := JNull;
                                hint := JNull; details := JNull |})) /\
  (forall (members : list (string * JSON)) (e : APIError)
          (name : string) (field : APIError -> JSON),
     APIErrorOps.init (JObj members) = Return e ->
     In (name, field) error_fields ->
     Py.lookup members name = None ->
     field e = JNull /\ field e <> JStr "").
Proof.
  split.
  - intros σ self r Hsend Hstatus Hbody.
    destruct (execute_by_status σ self r Hsend) as [_ Hother].
    rewrite Hother by lia. rewrite (raise_from_object r _ Hbody). reflexivity.
  - intros members e name field Hinit Hin Hmiss.
    rewrite (init_field members e name field Hinit Hin).
    unfold Py.dict_get. rewrite Hmiss. split; [reflexivity | discriminate].
Qed.

Lemma missing_error_fields_absent_witness :
  let self := AsyncQueryFactory.fields
                (Sample.plain_chain (Sample.always Sample.not_found)) in
  result (AsyncQueryRequestBuilder.execute (M := SpecModel.response_model)
            Sample.store self)
    = Raise (APIError_exn {| message := JStr "not found"; code := JNull;
                             hint := JNull; details := JNull |}).
Proof.
  intros self.
  exact (proj1 (missing_error_fields_absent (M := SpecModel.response_model))
           Sample.store self Sample.not_found eq_refl eq_refl eq_refl).
Defined.

(** ** Single and Plain *)

(** C10. For every headers state that is not classified as maybe-single,
    single-row mode without the marker included, the factory executes
    through the plain builder's [execute]: one request carrying the chain's
    headers, and an outcome that is a function of the answer alone.  Two
    such chains, one Plain and one Single, that get the same answer end the
    same way. *)
Theorem single_and_plain_share_execute {M : ResponseModel} σ (self : AsyncQueryFactory.t) :
  AsyncQueryFactory.is_maybe_single σ self = false ->
  AsyncQueryFactory.request_builder σ self
    = an_AsyncQueryRequestBuilder (AsyncQueryFactory.fields self) /\
  AsyncQueryFactory.execute σ self
    = AsyncQueryRequestBuilder.execute σ (AsyncQueryFactory.fields self) /\
  sent (AsyncQueryFactory.execute σ self)
    = [{| req_method := AsyncQueryFactory.http_method self;
          req_path := AsyncQueryFactory.path self;
          req_json := AsyncQueryFactory.json self;
          req_params := AsyncQueryFactory.params self;
          req_headers := σ !!! AsyncQueryFactory.headers self |}] /\
  (forall σ' (other : AsyncQueryFactory.t),
     AsyncQueryFactory.is_maybe_single σ' other = false ->
     AsyncQueryFactory.session self
       (AsyncQueryRequestBuilder.outgoing σ (AsyncQueryFactory.fields self))
     = AsyncQueryFactory.session other
         (AsyncQueryRequestBuilder.outgoing σ' (AsyncQueryFactory.fields other)) ->
     result (AsyncQueryFactory.execute σ self)
     = result (AsyncQueryFactory.execute σ' other)).
Proof.
  intros Hmode.
  split; [unfold AsyncQueryFactory.request_builder; rewrite Hmode; reflexivity|].
  split; [apply factory_execute_plain, Hmode|].
  rewrite (factory_execute_plain _ _ Hmode), execute_unfold.
  split; [reflexivity|].
  intros σ' other Hmode' Hanswer.
  rewrite (factory_execute_plain _ _ Hmode'), execute_unfold.
  cbn [result snd AsyncQueryFactory.fields AsyncQueryRequestBuilder.session] in *.
  rewrite Hanswer. reflexivity.
Qed.

Lemma single_and_plain_share_execute_witness :
  let plain := Sample.plain_chain (Sample.always Sample.two_rows) in
  let single := Sample.single_chain (Sample.always Sample.two_rows) in
  AsyncQueryFactory.is_single Sample.store plain = false /\
  AsyncQueryFactory.is_single Sample.store single = true /\
  AsyncQueryFactory.is_maybe_single Sample.store single = false /\
  AsyncQueryFactory.execute (M := SpecModel.response_model) Sample.store single
    = AsyncQueryRequestBuilder.execute (M := SpecModel.response_model)
        Sample.store (AsyncQueryFactory.fields single) /\
  result (AsyncQueryFactory.execute (M := SpecModel.response_model) Sample.store single)
    = result (AsyncQueryFactory.execute (M := SpecModel.response_model) Sample.store plain).
Proof.
  intros plain single.
  assert (Hs : AsyncQueryFactory.is_maybe_single Sample.store single = false)
    by (vm_compute; reflexivity).
  assert (Hp : AsyncQueryFactory.is_maybe_single Sample.store plain = false)
    by (vm_compute; reflexivity).
  destruct (single_and_plain_share_execute (M := SpecModel.response_model)
              Sample.store single Hs) as (_ & Hsame & _ & Hother).
  split; [vm_compute; reflexivity|]. split; [vm_compute; reflexivity|].
  split; [exact Hs|]. split; [exact Hsame|].
  exact (Hother Sample.store plain Hp eq_refl).
Defined.

(** ** Request assembly and the object store *)

(** A new [Headers] object is at a location nothing else refers to, holds
    what it was built from, and leaves every other object as it was. *)
Lemma new_headers_fresh (h : Headers) (σ : Store) :
  fst (SpecModel.new_headers h σ) ∉ dom σ.
Proof. unfold SpecModel.new_headers. simpl. apply is_fresh. Qed.

Lemma new_headers_lookup (h : Headers) (σ : Store) :
  snd (SpecModel.new_headers h σ) !!! fst (SpecModel.new_headers h σ) = h.
Proof. unfold SpecModel.new_headers. simpl. apply lookup_total_insert_eq. Qed.

Lemma new_headers_dom (h : Headers) (σ : Store) :
  dom (snd (SpecModel.new_headers h σ))
  = {[ fst (SpecModel.new_headers h σ) ]} ∪ dom σ.
Proof. unfold SpecModel.new_headers. simpl. apply dom_insert_L. Qed.

Lemma new_headers_other (h : Headers) (σ : Store) (l : loc) :
  l ∈ dom σ ->
  snd (SpecModel.new_headers h σ) !!! l = σ !!! l.
Proof.
  intros Hl. unfold SpecModel.new_headers. simpl.
  apply lookup_total_insert_ne. intros <-. exact (is_fresh (dom σ) Hl).
Qed.

(** Two allocations in a row: distinct objects, each with its own content. *)
Lemma new_headers_twice (h1 h2 : Headers) (σ : Store) :
  let a1 := SpecModel.new_headers h1 σ in
  let a2 := SpecModel.new_headers h2 (snd a1) in
  fst a1 <> fst a2 /\
  snd a2 !!! fst a1 = h1 /\
  snd a2 !!! fst a2 = h2.
Proof.
  intros a1 a2.
  assert (Hin : fst a1 ∈ dom (snd a1)).
  { unfold a1. rewrite new_headers_dom. set_solver. }
  split; [|split].
  - intros Heq. apply (new_headers_fresh h2 (snd a1)). fold a2. rewrite <- Heq.
    exact Hin.
  - unfold a2. rewrite (new_headers_other h2 (snd a1) (fst a1) Hin).
    apply new_headers_lookup.
  - apply new_headers_lookup.
Qed.

Lemma delete_unfold (self : AsyncRequestBuilder.t) count returning (σ : Store) :
  AsyncRequestBuilder.delete self count returning σ =
  let a := SpecModel.new_headers [("Prefer", SpecModel.prefer count returning None)] σ in
  (AsyncQueryFactory.mk (AsyncRequestBuilder.session self)
     (AsyncRequestBuilder.path self) "DELETE" (fst a) [] (JObj []), snd a).
Proof. reflexivity. Qed.

Lemma insert_unfold (self : AsyncRequestBuilder.t) rows count returning upsert (σ : Store) :
  AsyncRequestBuilder.insert self rows count returning upsert σ =
  let a := SpecModel.new_headers
             [("Prefer", SpecModel.prefer count returning
                           (if upsert then Some "merge-duplicates" else None))] σ in
  (AsyncQueryFactory.mk (AsyncRequestBuilder.session self)
     (AsyncRequestBuilder.path self) "POST" (fst a) [] rows, snd a).
Proof. reflexivity. Qed.

(** C8. Request assembly is deterministic and idempotent: two calls of the
    delete factory with identical arguments (count=exact, returning=minimal
    among them) produce identical (method, params, headers, body) tuples,
    the second call leaving the first tuple as it was. *)
Theorem delete_twice_identical (σ : Store) (self : AsyncRequestBuilder.t)
    (count : option SpecModel.CountMethod) (returning : SpecModel.ReturnMethod) :
  let first := AsyncRequestBuilder.delete self count returning σ in
  let second := AsyncRequestBuilder.delete self count returning (snd first) in
  AsyncQueryFactory.assembled (snd second) (fst second)
    = AsyncQueryFactory.assembled (snd second) (fst first) /\
  AsyncQueryFactory.assembled (snd second) (fst first)
    = AsyncQueryFactory.assembled (snd first) (fst first).
Proof.
  intros first second. unfold second, first. rewrite !delete_unfold.
  cbv zeta. unfold AsyncQueryFactory.assembled. cbn [fst snd
    AsyncQueryFactory.http_method AsyncQueryFactory.params
    AsyncQueryFactory.headers AsyncQueryFactory.json].
  set (h := [("Prefer", SpecModel.prefer count returning None)]).
  destruct (new_headers_twice h h σ) as (_ & H1 & H2).
  cbv zeta in H1, H2. rewrite H1, H2, new_headers_lookup. split; reflexivity.
Qed.

(** The instance of the spec's test: count=exact, returning=minimal, from
    the empty store. *)
Example delete_exact_minimal :
  let first := AsyncRequestBuilder.delete
                 (AsyncRequestBuilder.mk (Sample.always Sample.two_rows) "/countries")
                 (Some SpecModel.exact) SpecModel.minimal ∅ in
  let second := AsyncRequestBuilder.delete
                  (AsyncRequestBuilder.mk (Sample.always Sample.two_rows) "/countries")
                  (Some SpecModel.exact) SpecModel.minimal (snd first) in
  AsyncQueryFactory.assembled (snd second) (fst first)
    = ("DELETE", [], [("Prefer", "count=exact,return=minimal")], JObj []) /\
  AsyncQueryFactory.assembled (snd second) (fst second)
    = ("DELETE", [], [("Prefer", "count=exact,return=minimal")], JObj []) /\
  AsyncQueryFactory.headers (fst first) <> AsyncQueryFactory.headers (fst second).
Proof.
  intros first second. split; [|split]; vm_compute; [reflexivity|reflexivity|discriminate].
Qed.

(** C9. Two chains created by consecutive insert calls on the same rows,
    the first with upsert=true and the second with upsert=false, share no
    header state: their [Headers] are distinct objects, the headers of the
    second chain are exactly those of a fresh non-upsert insert, and they
    stay so whatever is written to the headers of the first chain. *)
Theorem insert_chains_share_no_headers (σ : Store) (self : AsyncRequestBuilder.t)
    (rows : JSON) (count : option SpecModel.CountMethod)
    (returning : SpecModel.ReturnMethod) :
  let first := AsyncRequestBuilder.insert self rows count returning true σ in
  let second := AsyncRequestBuilder.insert self rows count returning false (snd first) in
  let alone := AsyncRequestBuilder.insert self rows count returning false σ in
  AsyncQueryFactory.headers (fst first) <> AsyncQueryFactory.headers (fst second) /\
  snd second !!! AsyncQueryFactory.headers (fst second)
    = snd alone !!! AsyncQueryFactory.headers (fst alone) /\
  (forall written : Headers,
     <[AsyncQueryFactory.headers (fst first) := written]> (snd second)
       !!! AsyncQueryFactory.headers (fst second)
     = snd alone !!! AsyncQueryFactory.headers (fst alone)) /\
  HeadersOps.getitem (snd second !!! AsyncQueryFactory.headers (fst second)) "Prefer"
    = Some (SpecModel.prefer count returning None).
Proof.
  intros first second alone. unfold second, alone, first. rewrite !insert_unfold.
  cbv zeta. cbn [fst snd AsyncQueryFactory.headers].
  set (h1 := [("Prefer", SpecModel.prefer count returning (Some "merge-duplicates"))]).
  set (h2 := [("Prefer", SpecModel.prefer count returning None)]).
  destruct (new_headers_twice h1 h2 σ) as (Hne & _ & H2). cbv zeta in Hne, H2.
  rewrite !new_headers_lookup.
  split; [exact Hne|]. split; [reflexivity|]. split; [|reflexivity].
  intros written. rewrite lookup_total_insert_ne by exact Hne.
  apply new_headers_lookup.
Qed.

(** The instance with an upsert first: the resolution token of the first
    chain does not show up in the second, and putting the first chain into
    maybe-single mode leaves the second a plain one. *)
Example insert_upsert_then_plain :
  let builder := AsyncRequestBuilder.mk (Sample.always Sample.two_rows) "/countries" in
  let rows := JObj [("name", JStr "Atlantis")] in
  let first := AsyncRequestBuilder.insert builder rows None SpecModel.representation true ∅ in
  let second := AsyncRequestBuilder.insert builder rows None SpecModel.representation false
                  (snd first) in
  let σ := SpecModel.maybe_single (fst first) (snd second) in
  σ !!! AsyncQueryFactory.headers (fst first)
    = [("Prefer", "return=representation,resolution=merge-duplicates");
       ("Accept", "application/vnd.pgrst.object+json");
       ("x-maybeSingle", "true")] /\
  σ !!! AsyncQueryFactory.headers (fst second) = [("Prefer", "return=representation")] /\
  AsyncQueryFactory.is_maybe_single σ (fst first) = true /\
  AsyncQueryFactory.is_single σ (fst second) = false.
Proof. intros builder rows first second σ. repeat split; vm_compute; reflexivity. Qed.

(** The same zero-rows answer through a single-row chain without the marker
    is an error for the caller. *)
Example single_zero_rows_propagates :
  result (AsyncQueryFactory.execute (M := SpecModel.response_model) Sample.store
            (Sample.single_chain (Sample.always Sample.zero_rows)))
  = Raise (APIError_exn
             {| message := JStr "JSON object requested, multiple (or no) rows returned";
                code := JStr "PGRST116"; hint := JNull;
                details := JStr Sample.zero_rows_details |}).
Proof. vm_compute. reflexivity. Qed.

(** A transport failure crosses both strategies untouched. *)
Example transport_failure_propagates :
  let down : AsyncClient := fun _ => Raise (OtherError "ConnectError") in
  result (AsyncQueryFactory.execute (M := SpecModel.response_model) Sample.store
            (Sample.plain_chain down)) = Raise (OtherError "ConnectError") /\
  result (AsyncQueryFactory.execute (M := SpecModel.response_model) Sample.store
            (Sample.maybe_single_chain down)) = Raise (OtherError "ConnectError").
Proof. intros down. split; vm_compute; reflexivity. Qed.

(** The modelled response model on the spec's sample: two rows and the
    range [0-1/2] give the rows and the count 2; without the range header
    the count is absent. *)
Example two_rows_envelope :
  SpecModel.from_response Sample.two_rows
    = Return {| data := JArr [JObj [("a", JNum 1)]; JObj [("a", JNum 2)]];
                error := JNull;
                count := JNum 2 |} /\
  SpecModel.from_response
    {| status_code := 200; resp_headers := []; content := Valid (JArr []) |}
    = Return {| data := JArr []; error := JNull; count := JNull |}.
Proof. split; vm_compute; reflexivity. Qed.

(** * Further properties of the execution *)

(** What the plain strategy ends in when the client answered, and when it
    did not. *)
Lemma plain_result_answered {M : ResponseModel} σ
    (b : AsyncQueryRequestBuilder.t) (r : Response) :
  AsyncQueryRequestBuilder.session b (AsyncQueryRequestBuilder.outgoing σ b)
    = Return r ->
  result (AsyncQueryRequestBuilder.execute σ b)
  = AsyncQueryRequestBuilder.interpret r.
Proof. intros Hsend. rewrite execute_unfold, Hsend. reflexivity. Qed.

Lemma plain_result_failed {M : ResponseModel} σ
    (b : AsyncQueryRequestBuilder.t) (x : exn) :
  AsyncQueryRequestBuilder.session b (AsyncQueryRequestBuilder.outgoing σ b)
    = Raise x ->
  result (AsyncQueryRequestBuilder.execute σ b) = Raise x.
Proof. intros Hsend. rewrite execute_unfold, Hsend. reflexivity. Qed.

(** [raise APIError(r.json())] ends in the decoder's error, in the error
    of a failed construction, or in the [APIError]; in nothing else. *)
Lemma json_then_raise_cases {A} (r : Response) :
  (exists raw, (error ← Response_json r; APIErrorOps.raise_from (A := A) error)
               = Raise (JSONDecodeError raw)) \/
  (error ← Response_json r; APIErrorOps.raise_from (A := A) error)
    = Raise (AttributeError "get") \/
  (exists e, (error ← Response_json r; APIErrorOps.raise_from (A := A) error)
             = Raise (APIError_exn e)).
Proof.
  unfold Response_json. destruct (content r) as [j|raw]; simpl.
  - destruct j; simpl; eauto.
  - eauto.
Qed.

(** The test of the [except] block fails in one way only. *)
Lemma zero_rows_signal_raises (e : APIError) (x : exn) :
  AsyncMaybeSingleRequestBuilder.zero_rows_signal e = Raise x -> x = TypeError.
Proof.
  unfold AsyncMaybeSingleRequestBuilder.zero_rows_signal.
  destruct (Py.truthy (details e)); [|discriminate].
  destruct (details e); simpl; congruence.
Qed.

(** X1. Whatever the strategy and however the call ends, [execute] of a
    chain calls the client exactly once, with the chain's method, path,
    body, parameters and headers. *)
Theorem execute_sends_one_request {M : ResponseModel} σ (self : AsyncQueryFactory.t) :
  sent (AsyncQueryFactory.execute σ self)
  = [{| req_method := AsyncQueryFactory.http_method self;
        req_path := AsyncQueryFactory.path self;
        req_json := AsyncQueryFactory.json self;
        req_params := AsyncQueryFactory.params self;
        req_headers := σ !!! AsyncQueryFactory.headers self |}].
Proof.
  destruct (AsyncQueryFactory.is_maybe_single σ self) eqn:Hmode.
  - rewrite (factory_execute_maybe _ _ Hmode). apply maybe_single_sent.
  - rewrite (factory_execute_plain _ _ Hmode), execute_unfold. reflexivity.
Qed.

(** X2. An exception raised by the client's [request] reaches the caller
    unchanged: in the plain strategy every exception does, a validation
    error included, since the call is outside the [try]; in the maybe-single
    strategy every exception that is not an [APIError] does. *)
Theorem client_failure_propagates {M : ResponseModel} σ
    (self : AsyncQueryFactory.t) (x : exn) :
  AsyncQueryFactory.session self
    (AsyncQueryRequestBuilder.outgoing σ (AsyncQueryFactory.fields self)) = Raise x ->
  AsyncQueryFactory.is_maybe_single σ self = false \/ (forall e, x <> APIError_exn e) ->
  result (AsyncQueryFactory.execute σ self) = Raise x.
Proof.
  intros Hsend Hcase.
  pose proof (plain_result_failed σ (AsyncQueryFactory.fields self) x Hsend) as Hplain.
  destruct (AsyncQueryFactory.is_maybe_single σ self) eqn:Hmode.
  - destruct Hcase as [Hno | Hx]; [discriminate|].
    rewrite (factory_execute_maybe _ _ Hmode), maybe_single_result, Hplain.
    destruct x; try reflexivity. exfalso. eapply Hx. reflexivity.
  - rewrite (factory_execute_plain _ _ Hmode). exact Hplain.
Qed.

Lemma client_failure_propagates_witness :
  result (AsyncQueryFactory.execute (M := SpecModel.response_model) Sample.store
            (Sample.plain_chain Sample2.invalid_call)) = Raise ValidationError /\
  result (AsyncQueryFactory.execute (M := SpecModel.response_model) Sample.store
            (Sample.maybe_single_chain Sample2.down))
    = Raise (OtherError "ConnectError").
Proof.
  split.
  - apply (client_failure_propagates (M := SpecModel.response_model) Sample.store
             (Sample.plain_chain Sample2.invalid_call) ValidationError eq_refl).
    left. vm_compute. reflexivity.
  - apply (client_failure_propagates (M := SpecModel.response_model) Sample.store
             (Sample.maybe_single_chain Sample2.down) (OtherError "ConnectError")
             eq_refl).
    right. intros e. discriminate.
Defined.

(** X3. In maybe-single mode [execute] returns an envelope in two cases
    only: the plain strategy returned that envelope, or the plain strategy
    raised an [APIError] that passes the zero-rows test and the envelope is
    the empty one. *)
Theorem maybe_single_returns_iff {M : ResponseModel} σ
    (self : AsyncQueryFactory.t) (env : APIResponse) :
  AsyncQueryFactory.is_maybe_single σ self = true ->
  result (AsyncQueryFactory.execute σ self) = Return env <->
  result (AsyncQueryRequestBuilder.execute σ (AsyncQueryFactory.fields self))
    = Return env \/
  exists e,
    result (AsyncQueryRequestBuilder.execute σ (AsyncQueryFactory.fields self))
      = Raise (APIError_exn e) /\
    AsyncMaybeSingleRequestBuilder.zero_rows_signal e = Return true /\
    env = {| data := JNull; error := JNull; count := JNum 0 |}.
Proof.
  intros Hmode. rewrite (factory_execute_maybe _ _ Hmode), maybe_single_result.
  destruct (result (AsyncQueryRequestBuilder.execute σ _)) as [v|x].
  - split; [intros Hv; left; exact Hv|].
    intros [Hv | (e & He & _)]; [exact Hv | discriminate].
  - split.
    + intros Hret. right. destruct x as [e| | | | | |]; try discriminate.
      exists e. split; [reflexivity|].
      destruct (AsyncMaybeSingleRequestBuilder.zero_rows_signal e) as [[|]|y];
        try discriminate.
      split; [reflexivity|]. injection Hret as <-. reflexivity.
    + intros [Hv | (e & He & Hsig & ->)]; [discriminate|].
      injection He as ->. rewrite Hsig. reflexivity.
Qed.

Lemma maybe_single_returns_iff_witness :
  let self := Sample.maybe_single_chain (Sample.always Sample.two_rows) in
  AsyncQueryFactory.is_maybe_single Sample.store self = true /\
  result (AsyncQueryFactory.execute (M := SpecModel.response_model) Sample.store self)
    = Return {| data := JArr [JObj [("a", JNum 1)]; JObj [("a", JNum 2)]];
                error := JNull; count := JNum 2 |}.
Proof.
  intros self.
  assert (Hmode : AsyncQueryFactory.is_maybe_single Sample.store self = true)
    by (vm_compute; reflexivity).
  split; [exact Hmode|].
  apply (maybe_single_returns_iff (M := SpecModel.response_model)
           Sample.store self _ Hmode).
  left. vm_compute. reflexivity.
Defined.

(** X4. In maybe-single mode [execute] never ends in an [APIError]: one
    raised by the plain strategy is either turned into the empty envelope or
    replaced by another exception. *)
Theorem maybe_single_never_raises_APIError {M : ResponseModel} σ
    (self : AsyncQueryFactory.t) (e : APIError) :
  AsyncQueryFactory.is_maybe_single σ self = true ->
  result (AsyncQueryFactory.execute σ self) <> Raise (APIError_exn e).
Proof.
  intros Hmode. rewrite (factory_execute_maybe _ _ Hmode), maybe_single_result.
  destruct (result (AsyncQueryRequestBuilder.execute σ _)) as [v|x]; [discriminate|].
  destruct x as [e0| | | | | |]; try discriminate.
  destruct (AsyncMaybeSingleRequestBuilder.zero_rows_signal e0) as [[|]|y] eqn:Hsig;
    try discriminate.
  apply zero_rows_signal_raises in Hsig. subst y. discriminate.
Qed.

Lemma maybe_single_never_raises_APIError_witness :
  let self := Sample.maybe_single_chain (Sample.always Sample.not_found) in
  AsyncQueryFactory.is_maybe_single Sample.store self = true /\
  result (AsyncQueryFactory.execute (M := SpecModel.response_model) Sample.store self)
    <> Raise (APIError_exn {| message := JStr "not found"; code := JNull;
                              hint := JNull; details := JNull |}).
Proof.
  intros self.
  assert (Hmode : AsyncQueryFactory.is_maybe_single Sample.store self = true)
    by (vm_compute; reflexivity).
  split; [exact Hmode|].
  exact (maybe_single_never_raises_APIError (M := SpecModel.response_model)
           Sample.store self _ Hmode).
Defined.

(** Membership of a string in a list of decoded values. *)
Lemma existsb_eq_str (needle : string) (items : list JSON) :
  existsb (Py.eq_str needle) items = true <-> In (JStr needle) items.
Proof.
  rewrite existsb_exists. split.
  - intros (v & Hin & Heq). destruct v; simpl in Heq; try discriminate.
    apply String.eqb_eq in Heq. subst. exact Hin.
  - intros Hin. exists (JStr needle). split; [exact Hin|].
    simpl. apply String.eqb_refl.
Qed.

(** X5. The test [e.details and "Results contain 0 rows" in e.details]
    succeeds exactly when [details] is a string that has the text as a
    substring, a list that has the text as an element, or a dict that has
    the text as a key; it fails for absent and for empty [details]. *)
Theorem zero_rows_signal_iff (e : APIError) :
  let text := "Results contain 0 rows" in
  (AsyncMaybeSingleRequestBuilder.zero_rows_signal e = Return true <->
   (exists d, details e = JStr d /\ Str.substring_of text d) \/
   (exists items, details e = JArr items /\ In (JStr text) items) \/
   (exists members, details e = JObj members /\ Py.dict_has members text = true)) /\
  (Py.truthy (details e) = false ->
   AsyncMaybeSingleRequestBuilder.zero_rows_signal e = Return false).
Proof.
  intros text. unfold AsyncMaybeSingleRequestBuilder.zero_rows_signal. split.
  - destruct (details e) as [|b|n|d|items|members] eqn:Hd; simpl.
    + split; [discriminate|].
      intros [(? & ? & _) | [(? & ? & _) | (? & ? & _)]]; discriminate.
    + destruct b; (split; [discriminate|]);
        intros [(? & ? & _) | [(? & ? & _) | (? & ? & _)]]; discriminate.
    + destruct (negb (n =? 0)); (split; [discriminate|]);
        intros [(? & ? & _) | [(? & ? & _) | (? & ? & _)]]; discriminate.
    + destruct (String.eqb d "") eqn:Hempty; simpl.
      * apply String.eqb_eq in Hempty. subst d. split; [discriminate|].
        intros [(d & [= <-] & Hsub) | [(? & ? & _) | (? & ? & _)]];
          try discriminate.
        assert (Hne : text <> "") by discriminate.
        destruct (substring_nonempty text "" Hne Hsub eq_refl).
      * split.
        -- intros [= Hc]. left. exists d. split; [reflexivity|].
           apply contains_spec. exact Hc.
        -- intros [(d' & [= <-] & Hsub) | [(? & ? & _) | (? & ? & _)]];
             try discriminate.
           apply contains_spec in Hsub. fold text. rewrite Hsub. reflexivity.
    + destruct items as [|v items].
      * split; [discriminate|].
        intros [(? & ? & _) | [(l & [= <-] & []) | (? & ? & _)]]; discriminate.
      * split.
        -- intros [= Hc]. right. left. eexists. split; [reflexivity|].
           apply existsb_eq_str. exact Hc.
        -- intros [(? & ? & _) | [(l & [= <-] & Hin) | (? & ? & _)]];
             try discriminate.
           apply existsb_eq_str in Hin. fold text. rewrite Hin. reflexivity.
    + destruct members as [|kv members].
      * split; [discriminate|].
        intros [(? & ? & _) | [(? & ? & _) | (m & [= <-] & Hhas)]];
          discriminate.
      * split.
        -- intros [= Hc]. right. right. eexists. split; [reflexivity|]. exact Hc.
        -- intros [(? & ? & _) | [(? & ? & _) | (m & [= <-] & Hhas)]];
             try discriminate.
           fold text. rewrite Hhas. reflexivity.
  - intros Hfalsy. rewrite Hfalsy. reflexivity.
Qed.

(** X6. A response with a status in 200..299 whose envelope fails
    validation is reported as the [APIError] made from its JSON object body:
    a success status does not guarantee a returned envelope. *)
Theorem validation_failure_raises_api_error {M : ResponseModel} σ
    (self : AsyncQueryRequestBuilder.t) (r : Response)
    (members : list (string * JSON)) :
  AsyncQueryRequestBuilder.session self (AsyncQueryRequestBuilder.outgoing σ self)
    = Return r ->
  200 <= status_code r <= 299 ->
  from_http_request_response r = Raise ValidationError ->
  content r = Valid (JObj members) ->
  result (AsyncQueryRequestBuilder.execute σ self)
  = Raise (APIError_exn {| message := Py.dict_get members "message";
                           code := Py.dict_get members "code";
                           hint := Py.dict_get members "hint";
                           details := Py.dict_get members "details" |}).
Proof.
  intros Hsend Hrange Hinvalid Hbody.
  rewrite (plain_result_answered σ self r Hsend).
  unfold AsyncQueryRequestBuilder.interpret.
  apply ok_spec in Hrange. rewrite Hrange, Hinvalid. simpl.
  apply raise_from_object, Hbody.
Qed.

Lemma validation_failure_raises_api_error_witness :
  let self := AsyncQueryFactory.fields
                (Sample.plain_chain (Sample.always Sample2.error_in_success)) in
  200 <= status_code Sample2.error_in_success <= 299 /\
  result (AsyncQueryRequestBuilder.execute (M := Sample2.strict_model)
            Sample.store self)
  = Raise (APIError_exn {| message := JStr "permission denied";
                           code := JStr "42501";
                           hint := JNull; details := JNull |}).
Proof.
  intros self.
  assert (Hin : 200 <= status_code Sample2.error_in_success <= 299) by (simpl; lia).
  split; [exact Hin|].
  exact (validation_failure_raises_api_error (M := Sample2.strict_model)
           Sample.store self Sample2.error_in_success _ eq_refl Hin eq_refl eq_refl).
Defined.

(** X7. In maybe-single mode the zero-rows text in the [details] of a JSON
    object body turns every answer outside 200..299 into the empty
    envelope, whatever its status code. *)
Theorem maybe_single_suppresses_any_status {M : ResponseModel} σ
    (self : AsyncQueryFactory.t) (r : Response)
    (members : list (string * JSON)) (d : string) :
  AsyncQueryFactory.is_maybe_single σ self = true ->
  AsyncQueryFactory.session self
    (AsyncQueryRequestBuilder.outgoing σ (AsyncQueryFactory.fields self)) = Return r ->
  ~ 200 <= status_code r <= 299 ->
  content r = Valid (JObj members) ->
  Py.dict_get members "details" = JStr d ->
  Str.substring_of "Results contain 0 rows" d ->
  result (AsyncQueryFactory.execute σ self)
  = Return {| data := JNull; error := JNull; count := JNum 0 |}.
Proof.
  intros Hmode Hsend Hout Hbody Hd Hsub.
  rewrite (factory_execute_maybe _ _ Hmode), maybe_single_result.
  destruct (execute_by_status σ (AsyncQueryFactory.fields self) r Hsend) as [_ Hraise].
  rewrite (Hraise Hout), (raise_from_object r members Hbody).
  erewrite zero_rows_signal_of_substring; [reflexivity | exact Hd | exact Hsub].
Qed.

Lemma maybe_single_suppresses_any_status_witness :
  let self := Sample.maybe_single_chain (Sample.always Sample2.zero_rows_500) in
  status_code Sample2.zero_rows_500 = 500 /\
  result (AsyncQueryFactory.execute (M := SpecModel.response_model) Sample.store self)
  = Return {| data := JNull; error := JNull; count := JNum 0 |}.
Proof.
  intros self. split; [reflexivity|].
  apply (maybe_single_suppresses_any_status (M := SpecModel.response_model)
           Sample.store self Sample2.zero_rows_500
           [("details", JStr Sample.zero_rows_details)] Sample.zero_rows_details).
  - vm_compute. reflexivity.
  - reflexivity.
  - simpl. lia.
  - reflexivity.
  - reflexivity.
  - exists "", ", application/vnd.pgrst.object+json requires 1 row". reflexivity.
Defined.

(** X8. Once the client has answered, the plain [execute] never ends in a
    validation error: the one the response model raises is replaced by the
    outcome of [raise APIError(r.json())]. *)
Theorem answered_never_validation_error {M : ResponseModel} σ
    (self : AsyncQueryRequestBuilder.t) (r : Response) :
  AsyncQueryRequestBuilder.session self (AsyncQueryRequestBuilder.outgoing σ self)
    = Return r ->
  result (AsyncQueryRequestBuilder.execute σ self) <> Raise ValidationError.
Proof.
  intros Hsend. rewrite (plain_result_answered σ self r Hsend).
  assert (Hraise : (error ← Response_json r; APIErrorOps.raise_from error)
                   <> Raise (A := APIResponse) ValidationError).
  { destruct (json_then_raise_cases (A := APIResponse) r)
      as [[raw ->] | [-> | [e ->]]]; discriminate. }
  destruct (AsyncQueryRequestBuilder.ok r) eqn:Hok.
  - unfold AsyncQueryRequestBuilder.interpret. rewrite Hok.
    destruct (from_http_request_response r) as [v|x]; [discriminate|].
    destruct x; simpl; try discriminate. exact Hraise.
  - rewrite (interpret_out_of_range r Hok). exact Hraise.
Qed.

Lemma answered_never_validation_error_witness :
  let self := AsyncQueryFactory.fields
                (Sample.plain_chain (Sample.always Sample2.error_in_success)) in
  from_http_request_response (ResponseModel := Sample2.strict_model)
    Sample2.error_in_success = Raise ValidationError /\
  result (AsyncQueryRequestBuilder.execute (M := Sample2.strict_model)
            Sample.store self) <> Raise ValidationError.
Proof.
  intros self. split; [reflexivity|].
  exact (answered_never_validation_error (M := Sample2.strict_model)
           Sample.store self Sample2.error_in_success eq_refl).
Defined.

(** * Headers that are shared by reference *)

(** Lookup after assignment, on the entries of a [Headers] object. *)
Lemma values_drop_key_same (h : Headers) (key : string) :
  HeadersOps.values (HeadersOps.drop_key h key) key = [].
Proof.
  unfold HeadersOps.values. induction h as [|[k v] h IH]; simpl; [reflexivity|].
  destruct (String.eqb (Str.lower k) (Str.lower key)) eqn:Hk; [exact IH|].
  simpl. rewrite Hk. exact IH.
Qed.

Lemma values_drop_key_other (h : Headers) (key other : string) :
  Str.lower key <> Str.lower other ->
  HeadersOps.values (HeadersOps.drop_key h key) other = HeadersOps.values h other.
Proof.
  intros Hne. unfold HeadersOps.values.
  induction h as [|[k v] h IH]; simpl; [reflexivity|].
  destruct (String.eqb (Str.lower k) (Str.lower key)) eqn:Hk.
  - apply String.eqb_eq in Hk.
    destruct (String.eqb (Str.lower k) (Str.lower other)) eqn:Ho; [|exact IH].
    apply String.eqb_eq in Ho. congruence.
  - simpl. destruct (String.eqb (Str.lower k) (Str.lower other)); simpl;
      [f_equal|]; exact IH.
Qed.

Lemma values_setitem_same (h : Headers) (key value : string) :
  HeadersOps.values (HeadersOps.setitem h key value) key = [value].
Proof.
  induction h as [|[k v] h IH]; simpl.
  - unfold HeadersOps.values. simpl. rewrite String.eqb_refl. reflexivity.
  - destruct (String.eqb (Str.lower k) (Str.lower key)) eqn:Hk.
    + pose proof (values_drop_key_same h key) as Hdrop.
      unfold HeadersOps.values in *. simpl. rewrite String.eqb_refl. simpl.
      rewrite Hdrop. reflexivity.
    + unfold HeadersOps.values in *. simpl. rewrite Hk. exact IH.
Qed.

Lemma values_setitem_other (h : Headers) (key value other : string) :
  Str.lower key <> Str.lower other ->
  HeadersOps.values (HeadersOps.setitem h key value) other = HeadersOps.values h other.
Proof.
  intros Hne. apply String.eqb_neq in Hne as Hneb.
  induction h as [|[k v] h IH]; simpl.
  - unfold HeadersOps.values. simpl. rewrite Hneb. reflexivity.
  - destruct (String.eqb (Str.lower k) (Str.lower key)) eqn:Hk.
    + apply String.eqb_eq in Hk.
      pose proof (values_drop_key_other h key other Hne) as Hdrop.
      unfold HeadersOps.values in *. simpl. rewrite Hneb, Hk, Hneb. exact Hdrop.
    + unfold HeadersOps.values in *. simpl.
      destruct (String.eqb (Str.lower k) (Str.lower other)); simpl;
        [f_equal|]; exact IH.
Qed.

Lemma contains_values (h : Headers) (key : string) :
  HeadersOps.contains h key
  = match HeadersOps.values h key with [] => false | _ => true end.
Proof.
  unfold HeadersOps.contains, HeadersOps.values.
  induction h as [|[k v] h IH]; simpl; [reflexivity|].
  destruct (String.eqb (Str.lower k) (Str.lower key)); simpl; [reflexivity | exact IH].
Qed.

Lemma getitem_setitem_same (h : Headers) (key value : string) :
  HeadersOps.getitem (HeadersOps.setitem h key value) key = Some value.
Proof. unfold HeadersOps.getitem. rewrite values_setitem_same. reflexivity. Qed.

Lemma getitem_setitem_other (h : Headers) (key value other : string) :
  Str.lower key <> Str.lower other ->
  HeadersOps.getitem (HeadersOps.setitem h key value) other = HeadersOps.getitem h other.
Proof.
  intros Hne. unfold HeadersOps.getitem. rewrite values_setitem_other by exact Hne.
  reflexivity.
Qed.

Lemma marker_cond_setitem_accept (h : Headers) (value : string) :
  AsyncQueryFactory.marker_cond (HeadersOps.setitem h "Accept" value)
  = AsyncQueryFactory.marker_cond h.
Proof.
  unfold AsyncQueryFactory.marker_cond.
  rewrite !contains_values, getitem_setitem_other, values_setitem_other;
    [reflexivity | discriminate | discriminate].
Qed.

Lemma marker_cond_setitem_marker (h : Headers) (marker : string) :
  Str.lower marker = "true" ->
  AsyncQueryFactory.marker_cond (HeadersOps.setitem h "x-maybeSingle" marker) = true.
Proof.
  intros Hlow. unfold AsyncQueryFactory.marker_cond.
  rewrite contains_values, values_setitem_same, getitem_setitem_same, Hlow.
  reflexivity.
Qed.

(** The two predicates, by the content of the chain's headers object. *)
Lemma is_single_by_content σ (self : AsyncQueryFactory.t) :
  AsyncQueryFactory.is_single σ self
  = match HeadersOps.getitem (σ !!! AsyncQueryFactory.headers self) "Accept" with
    | Some v => String.eqb v AsyncQueryFactory.object_json
    | None => false
    end.
Proof. reflexivity. Qed.

(** X9. The strategy is read off the chain's [Headers] object when it is
    asked for.  After [Accept] is set to the object media type in that
    object the chain is in single-row mode and its marker test is what it
    was; after the marker is set as well, in any casing of "true", the chain
    is in maybe-single mode, and so is every factory that holds the same
    object; a factory that holds another object keeps its strategy. *)
Theorem strategy_follows_shared_headers σ (self : AsyncQueryFactory.t)
    (marker : string) :
  Str.lower marker = "true" ->
  let l := AsyncQueryFactory.headers self in
  let σ1 : Store :=
    <[l := HeadersOps.setitem (σ !!! l) "Accept" AsyncQueryFactory.object_json]> σ in
  let σ2 : Store :=
    <[l := HeadersOps.setitem (σ1 !!! l) "x-maybeSingle" marker]> σ1 in
  AsyncQueryFactory.is_single σ1 self = true /\
  AsyncQueryFactory.is_maybe_single σ1 self
    = AsyncQueryFactory.marker_cond (σ !!! l) /\
  (forall other : AsyncQueryFactory.t,
     AsyncQueryFactory.headers other = l ->
     AsyncQueryFactory.is_maybe_single σ2 other = true) /\
  (forall other : AsyncQueryFactory.t,
     AsyncQueryFactory.headers other <> l ->
     AsyncQueryFactory.is_single σ2 other = AsyncQueryFactory.is_single σ other /\
     AsyncQueryFactory.is_maybe_single σ2 other
       = AsyncQueryFactory.is_maybe_single σ other).
Proof.
  intros Hlow l σ1 σ2.
  assert (H1 : σ1 !!! l = HeadersOps.setitem (σ !!! l) "Accept"
                            AsyncQueryFactory.object_json)
    by apply lookup_total_insert_eq.
  assert (H2 : σ2 !!! l = HeadersOps.setitem (σ1 !!! l) "x-maybeSingle" marker)
    by apply lookup_total_insert_eq.
  assert (Hs1 : AsyncQueryFactory.is_single σ1 self = true).
  { rewrite is_single_by_content. fold l. rewrite H1, getitem_setitem_same.
    apply String.eqb_refl. }
  split; [exact Hs1|]. split.
  - unfold AsyncQueryFactory.is_maybe_single. rewrite Hs1. fold l.
    rewrite H1. simpl. apply marker_cond_setitem_accept.
  - split.
    + intros other Hsame. unfold AsyncQueryFactory.is_maybe_single.
      rewrite is_single_by_content, Hsame, H2, H1.
      rewrite getitem_setitem_other by discriminate.
      rewrite getitem_setitem_same, String.eqb_refl.
      rewrite (marker_cond_setitem_marker _ marker Hlow). reflexivity.
    + intros other Hother.
      assert (Hframe : σ2 !!! AsyncQueryFactory.headers other
                       = σ !!! AsyncQueryFactory.headers other).
      { unfold σ2, σ1. rewrite !lookup_total_insert_ne by congruence. reflexivity. }
      unfold AsyncQueryFactory.is_maybe_single. rewrite !is_single_by_content.
      rewrite Hframe. split; reflexivity.
Qed.

Lemma strategy_follows_shared_headers_witness :
  let first := Sample.chain (Sample.always Sample.zero_rows) 1%positive in
  let alias := Sample.chain Sample2.down 1%positive in
  let σ1 : Store :=
    <[1%positive := HeadersOps.setitem (Sample.store !!! 1%positive) "Accept"
                      AsyncQueryFactory.object_json]> Sample.store in
  let σ2 : Store :=
    <[1%positive := HeadersOps.setitem (σ1 !!! 1%positive) "x-maybeSingle" "TRUE"]> σ1 in
  AsyncQueryFactory.is_single Sample.store first = false /\
  AsyncQueryFactory.is_single σ1 first = true /\
  AsyncQueryFactory.is_maybe_single σ2 alias = true.
Proof.
  intros first alias σ1 σ2.
  destruct (strategy_follows_shared_headers Sample.store first "TRUE" eq_refl)
    as (Hs & _ & Hshared & _).
  split; [vm_compute; reflexivity|]. split; [exact Hs|].
  exact (Hshared alias eq_refl).
Defined.

(** * The verb entry points *)

(** What every entry point does with the tuple of its assembly function. *)
Lemma chain_runs_as {M : ResponseModel} (self : AsyncRequestBuilder.t)
    (assembled : Assembled * Store) :
  Verbs.runs_as self assembled
    (let '((method, params, headers, json), σ') := assembled in
     (AsyncQueryFactory.mk (AsyncRequestBuilder.session self)
        (AsyncRequestBuilder.path self) method headers params json, σ')).
Proof.
  destruct assembled as [[[[method params] headers] json] σ'].
  unfold Verbs.runs_as. cbn [fst snd AsyncQueryFactory.session AsyncQueryFactory.path].
  repeat split.
  destruct (AsyncQueryFactory.is_maybe_single σ'
              (AsyncQueryFactory.mk (AsyncRequestBuilder.session self)
                 (AsyncRequestBuilder.path self) method headers params json)) eqn:Hmode.
  - rewrite (factory_execute_maybe _ _ Hmode). apply maybe_single_sent.
  - rewrite (factory_execute_plain _ _ Hmode), execute_unfold. reflexivity.
Qed.

(** X10. Each of [select], [insert], [upsert], [update] and [delete]
    returns a chain bound to the builder's client and path, leaves the store
    as its assembly function left it, and executing the chain sends exactly
    the assembled method, parameters, headers and body to that path. *)
Theorem verbs_run_as_assembled {M : ResponseModel} {A : RequestAssembly}
    (self : AsyncRequestBuilder.t) (σ : Store) :
  (forall columns count,
     Verbs.runs_as self (pre_select columns count σ)
       (Verbs.select self columns count σ)) /\
  (forall json count returning upsert,
     Verbs.runs_as self (pre_insert json count returning upsert σ)
       (Verbs.insert self json count returning upsert σ)) /\
  (forall json count returning ignore_duplicates,
     Verbs.runs_as self (pre_upsert json count returning ignore_duplicates σ)
       (Verbs.upsert self json count returning ignore_duplicates σ)) /\
  (forall json count returning,
     Verbs.runs_as self (pre_update json count returning σ)
       (Verbs.update self json count returning σ)) /\
  (forall count returning,
     Verbs.runs_as self (pre_delete count returning σ)
       (Verbs.delete self count returning σ)).
Proof.
  repeat split; intros; apply chain_runs_as.
Qed.

(** The sample assembly at work: a select with blanks around its columns
    and a count, executed against the two-row answer. *)
Example select_then_execute :
  let builder := AsyncRequestBuilder.mk (Sample.always Sample.two_rows) "/countries" in
  let made := Verbs.select (A := Sample2.assembly) builder
                [" name"; "capital "] (Some SpecModel.exact) ∅ in
  sent (AsyncQueryFactory.execute (M := SpecModel.response_model) (snd made) (fst made))
    = [{| req_method := "GET"; req_path := "/countries"; req_json := JObj [];
          req_params := [("select", "name,capital")];
          req_headers := [("Prefer", "count=exact")] |}] /\
  result (AsyncQueryFactory.execute (M := SpecModel.response_model) (snd made) (fst made))
    = Return {| data := JArr [JObj [("a", JNum 1)]; JObj [("a", JNum 2)]];
                error := JNull; count := JNum 2 |}.
Proof. intros builder made. split; vm_compute; reflexivity. Qed.
